(** * DoclingProcessor: a shallow embedding of
      [document_processor/docling_processor.py]

    The module wraps the Docling conversion engine.  Everything the wrapper
    itself decides is embedded here as executable definitions: the
    best-effort serializer [safe_serialize_tabledata], the converter-handle
    bookkeeping of [process_document], the defensive extraction of
    [_extract_document_structure], the Markdown fallback and the cleanup
    loop.  The engine, the operating system and the [json]/[str] builtins
    are collaborators: they appear as a record of oracles ([extern]) and as
    a small file-system model. *)

From Stdlib Require Import String Ascii List ZArith Bool Lia DecimalString.
From Stdlib Require DecimalNat.
Import ListNotations.
Open Scope string_scope.
Open Scope Z_scope.

Set Implicit Arguments.
Set Warnings "-register-all".

(** ** Python values *)

(** The dynamically typed values that flow through the wrapper.  The three
    last constructors are the shapes [safe_serialize_tabledata] tells apart
    with [hasattr]: an object with a [__dict__], an iterable without one
    that is no list, tuple or dictionary (a generator, an iterator), and an
    object with neither. *)
Inductive pyval : Type :=
| PNone
| PBool (b : bool)
| PInt (n : Z)
| PFloat (num : Z) (den : positive)
| PStr (s : string)
| PBytes (s : string)
| PList (items : list pyval)
| PTuple (items : list pyval)
| PDict (entries : list (pyval * pyval))
| PIterable (items : list pyval)
| PObject (cls : string) (attrs : list (string * pyval))
| POpaque (cls : string).

(** [Dict[str, Any]]: insertion-ordered, string keyed. *)
Definition pydict := list (string * pyval).

Fixpoint dict_get (d : pydict) (k : string) : option pyval :=
  match d with
  | [] => None
  | (k', v) :: d' => if String.eqb k' k then Some v else dict_get d' k
  end.

(** [d[k] = v]: overwrite in place, or append. *)
Fixpoint dict_set (d : pydict) (k : string) (v : pyval) : pydict :=
  match d with
  | [] => [(k, v)]
  | (k', v') :: d' =>
      if String.eqb k' k then (k', v) :: d' else (k', v') :: dict_set d' k v
  end.

(** [d.get(k, dflt)] *)
Definition dict_get_default (d : pydict) (k : string) (dflt : pyval) : pyval :=
  match dict_get d k with Some v => v | None => dflt end.

Definition as_pyval (d : pydict) : pyval :=
  PDict (map (fun kv => (PStr (fst kv), snd kv)) d).

(** [getattr(obj, name, dflt)] on an attribute that may be absent. *)
Definition getattr_default (a : option pyval) (dflt : pyval) : pyval :=
  match a with Some v => v | None => dflt end.

(** An induction principle that reaches the values nested in lists. *)
Section PyvalInd.
Variable P : pyval -> Prop.
Hypothesis HNone : P PNone.
Hypothesis HBool : forall b, P (PBool b).
Hypothesis HInt : forall n, P (PInt n).
Hypothesis HFloat : forall n d, P (PFloat n d).
Hypothesis HStr : forall s, P (PStr s).
Hypothesis HBytes : forall s, P (PBytes s).
Hypothesis HList : forall l, Forall P l -> P (PList l).
Hypothesis HTuple : forall l, Forall P l -> P (PTuple l).
Hypothesis HDict :
  forall l, Forall (fun kv => P (fst kv) /\ P (snd kv)) l -> P (PDict l).
Hypothesis HIter : forall l, Forall P l -> P (PIterable l).
Hypothesis HObject :
  forall c l, Forall (fun kv => P (snd kv)) l -> P (PObject c l).
Hypothesis HOpaque : forall c, P (POpaque c).

End PyvalInd.

(** ** The [json] encoder *)

(** A dictionary key the encoder accepts: [str], [int], [float], [bool] or
    [None].  Any other key is a [TypeError]; the [default] hook is not
    consulted for keys. *)
Definition json_key_ok (k : pyval) : bool :=
  match k with
  | PNone | PBool _ | PInt _ | PFloat _ _ | PStr _ => true
  | _ => false
  end.

(** [json.dumps(value)] without a [default] hook returns (rather than
    raising [TypeError]). *)
Fixpoint json_dumps_ok (v : pyval) : bool :=
  match v with
  | PNone | PBool _ | PInt _ | PFloat _ _ | PStr _ => true
  | PList l | PTuple l => forallb json_dumps_ok l
  | PDict kvs =>
      forallb (fun kv => json_key_ok (fst kv) && json_dumps_ok (snd kv)) kvs
  | PBytes _ | PIterable _ | PObject _ _ | POpaque _ => false
  end.

(** The encoder with a [default] hook.  A value the encoder does not know is
    replaced by [default value] and that replacement is encoded in turn;
    [depth] bounds how often the hook may be re-entered on one path, as the
    interpreter's recursion limit does. *)
Fixpoint json_encode_ok (default : pyval -> pyval) (depth : nat)
  : pyval -> bool :=
  fix enc (v : pyval) : bool :=
    match v with
    | PNone | PBool _ | PInt _ | PFloat _ _ | PStr _ => true
    | PList l | PTuple l => forallb enc l
    | PDict kvs => forallb (fun kv => json_key_ok (fst kv) && enc (snd kv)) kvs
    | PBytes _ | PIterable _ | PObject _ _ | POpaque _ =>
        match depth with
        | O => false
        | S depth' => json_encode_ok default depth' (default v)
        end
    end.


(** ** [safe_serialize_tabledata] *)

(** [key.startswith('_')] *)
Definition starts_with_underscore (k : string) : bool :=
  match k with
  | String c _ => Ascii.eqb c "_"%char
  | EmptyString => false
  end.

Section Serialize.
(** The builtin [str]. *)
Variable py_str : pyval -> string.

(** [hasattr(v, '__dict__')] holds of [PObject] alone; [hasattr(v,
    '__iter__') and not isinstance(v, (str, bytes))] of lists, tuples,
    dictionaries (iterating one yields its keys) and [PIterable].  The
    inner [match] is the [except] branch of the loop over [__dict__]: only
    a value [json.dumps] rejects reaches it. *)
Fixpoint safe_serialize_tabledata (obj : pyval) : pyval :=
  match obj with
  | PObject cls attrs =>
      as_pyval
        (fold_left
           (fun result kv =>
              if starts_with_underscore (fst kv) then result
              else
                dict_set result (fst kv)
                  (if json_dumps_ok (snd kv) then snd kv
                   else
                     match snd kv with
                     | PObject _ _ => safe_serialize_tabledata (snd kv)
                     | PList l | PTuple l | PIterable l =>
                         PList (map safe_serialize_tabledata l)
                     | PDict kvs =>
                         PList (map (fun e => safe_serialize_tabledata (fst e)) kvs)
                     | other => PStr (py_str other)
                     end))
           attrs [("_type", PStr cls)])
  | PList l | PTuple l | PIterable l => PList (map safe_serialize_tabledata l)
  | PDict kvs => PList (map (fun e => safe_serialize_tabledata (fst e)) kvs)
  | other => if json_dumps_ok other then other else PStr (py_str other)
  end.
End Serialize.

(** ** Paths *)

(** Paths are strings in [pathlib]'s normal form: components separated by
    single slashes, no trailing slash. *)

(** Split at the last occurrence of [sep]. *)
Fixpoint rsplit (sep : ascii) (s : string) : option (string * string) :=
  match s with
  | EmptyString => None
  | String c rest =>
      match rsplit sep rest with
      | Some (l, r) => Some (String c l, r)
      | None => if Ascii.eqb c sep then Some (EmptyString, rest) else None
      end
  end.

(** [Path(p).name] *)
Definition path_name (p : string) : string :=
  match rsplit "/" p with Some (_, n) => n | None => p end.

(** [Path(p).parent], [None] standing for the working directory. *)
Definition path_parent (p : string) : option string :=
  match rsplit "/" p with Some (d, _) => Some d | None => None end.

(** [Path(p).suffix]: from the last dot of the name on, unless that dot is
    the first or the last character of the name. *)
Definition path_suffix (p : string) : string :=
  match rsplit "." (path_name p) with
  | Some (EmptyString, _) => ""
  | Some (_, EmptyString) => ""
  | Some (_, ext) => String "." ext
  | None => ""
  end.

(** [Path(p).stem] *)
Definition path_stem (p : string) : string :=
  match rsplit "." (path_name p) with
  | Some (EmptyString, _) => path_name p
  | Some (_, EmptyString) => path_name p
  | Some (stem, _) => stem
  | None => path_name p
  end.

(** [str(Path(dir) / name)] *)
Definition path_join (dir name : string) : string := dir ++ "/" ++ name.

(** [f"{n}"] for a non-negative index. *)
Definition decimal (n : nat) : string := NilEmpty.string_of_uint (Nat.to_uint n).

(** ** Exceptions *)

Inductive exn : Type :=
| FileNotFoundError (path : string)
| IsADirectoryError (path : string)
| FileExistsError (path : string)
| AttributeError (what : string)
| ValueError_file_too_large (file_size max_size : Z)
| TypeError (what : string)
| EngineError (what : string).

(** ** The file system *)

Inductive node : Type :=
| File (content : string)
| Dir.

(** Entries by full path, in the order a directory scan reports them. *)
Definition filesystem := list (string * node).

Fixpoint fs_lookup (fs : filesystem) (p : string) : option node :=
  match fs with
  | [] => None
  | (q, n) :: fs' => if String.eqb q p then Some n else fs_lookup fs' p
  end.

(** [os.path.exists] *)
Definition fs_exists (fs : filesystem) (p : string) : bool :=
  match fs_lookup fs p with Some _ => true | None => false end.

(** [os.path.getsize]: the byte length of a file; a directory reports the
    size of its own entry. *)
Definition fs_getsize (fs : filesystem) (p : string) : Z :=
  match fs_lookup fs p with
  | Some (File c) => Z.of_nat (String.length c)
  | Some Dir => 4096
  | None => 0
  end.

Fixpoint fs_put (fs : filesystem) (p : string) (c : string) : filesystem :=
  match fs with
  | [] => [(p, File c)]
  | (q, n) :: fs' =>
      if String.eqb q p then (q, File c) :: fs' else (q, n) :: fs_put fs' p c
  end.

Fixpoint fs_remove (fs : filesystem) (p : string) : filesystem :=
  match fs with
  | [] => []
  | (q, n) :: fs' =>
      if String.eqb q p then fs_remove fs' p else (q, n) :: fs_remove fs' p
  end.

(** Whether [open(p, 'w')] succeeds: the parent (the working directory, the
    root, or a directory on record) must be there and [p] itself must not
    be a directory. *)
Definition fs_writable (fs : filesystem) (p : string) : bool :=
  match fs_lookup fs p with
  | Some Dir => false
  | _ =>
      match path_parent p with
      | None | Some EmptyString => true
      | Some d =>
          match fs_lookup fs d with
          | Some Dir => true
          | _ => false
          end
      end
  end.

(** [open(p, 'w')] followed by one [write]. *)
Definition fs_write (fs : filesystem) (p : string) (c : string)
  : exn + filesystem :=
  if fs_writable fs p then inr (fs_put fs p c)
  else
    match fs_lookup fs p with
    | Some Dir => inl (IsADirectoryError p)
    | _ => inl (FileNotFoundError p)
    end.

(** [Path(p).mkdir(parents=True, exist_ok=True)]; [fuel] bounds the walk up
    the ancestors and the length of the path is enough. *)
Fixpoint fs_mkdir_parents (fuel : nat) (fs : filesystem) (p : string)
  : exn + filesystem :=
  match fs_lookup fs p with
  | Some Dir => inr fs
  | Some (File _) => inl (FileExistsError p)
  | None =>
      match fuel, path_parent p with
      | S fuel', Some (String c d) =>
          match fs_mkdir_parents fuel' fs (String c d) with
          | inr fs' => inr (fs' ++ [(p, Dir)])%list
          | inl e => inl e
          end
      | _, _ => inr (fs ++ [(p, Dir)])%list
      end
  end.

Definition fs_mkdir (fs : filesystem) (p : string) : exn + filesystem :=
  fs_mkdir_parents (String.length p) fs p.

(** [Path(p).unlink()] *)
Definition fs_unlink (fs : filesystem) (p : string) : exn + filesystem :=
  match fs_lookup fs p with
  | Some (File _) => inr (fs_remove fs p)
  | Some Dir => inl (IsADirectoryError p)
  | None => inl (FileNotFoundError p)
  end.

(** [p] names an entry of the directory [dir]. *)
Definition is_child_of (dir p : string) : bool :=
  match path_parent p with
  | Some d => String.eqb d dir
  | None => false
  end.

(** [Path(dir).glob("*")]: the children of [dir], files and directories
    alike, in scan order; nothing when [dir] is not a directory. *)
Definition fs_glob_star (fs : filesystem) (dir : string) : list string :=
  match fs_lookup fs dir with
  | Some Dir => map fst (filter (fun e => is_child_of dir (fst e)) fs)
  | _ => []
  end.

(** ** The engine and the other collaborators *)

Record PdfPipelineOptions : Type := {
  do_ocr : bool;
  do_table_structure : bool;
  generate_page_images : bool
}.

(** The converter handle.  [serial] numbers the constructor call that built
    it, so that a rebuilt handle differs from the one it replaces. *)
Record DocumentConverter : Type := {
  serial : nat;
  pipeline_options : PdfPipelineOptions
}.

Record HybridChunker : Type := {
  max_tokens : Z;
  overlap_tokens : Z
}.

(** The elements of a converted document.  Every field is an attribute the
    wrapper probes with [hasattr] or [getattr]: [None] when it is absent. *)
Record section_item : Type := {
  section_title : option pyval;
  section_text : option pyval;
  section_level : option pyval;
  section_page : option pyval
}.

Record table_item : Type := {
  table_page : option pyval;
  table_bbox : option pyval;
  table_data : option pyval;
  table_rows : option pyval;
  table_columns : option pyval;
  table_repr : string  (* str(table) *)
}.

Record image_item : Type := {
  image_page : option pyval;
  image_bbox : option pyval;
  image_format : option pyval;
  image_data : option pyval
}.

Record DoclingDocument : Type := {
  doc_title : option string;
  doc_text : option string;
  doc_markdown : string;  (* export_to_markdown() *)
  doc_pages : option (list pyval);
  doc_sections : option (list section_item);
  doc_tables : option (list table_item);
  doc_images : option (list image_item)
}.

(** Everything the wrapper calls and does not implement.  The constructor
    and [convert] are indexed by the number of earlier calls, so that their
    outcome may change from one call to the next. *)
Record extern : Type := {
  py_str : pyval -> string;
  (* the characters json.dump emits for a value until it returns or raises *)
  json_text : pyval -> string;
  isoformat : Z -> string;
  (* DocumentConverter(format_options=...): None when it returns *)
  new_converter : nat -> PdfPipelineOptions -> option exn;
  (* converter.convert(file_path).document, and the microseconds it took *)
  convert : nat -> DocumentConverter -> string -> exn + DoclingDocument;
  convert_duration : nat -> Z;
  (* len(list(chunker.chunk(document))) *)
  chunk : HybridChunker -> DoclingDocument -> exn + nat
}.

(** ** Configuration, processor and result *)

Record DoclingConfig : Type := {
  model_path : string;
  cache_dir : string;
  temp_dir : string;
  use_gpu : bool;
  max_workers : Z;
  enable_ocr_by_default : bool;
  ocr_languages : list string;
  ocr_confidence_threshold : Z * positive;
  extract_tables : bool;
  extract_images : bool;
  extract_formulas : bool;
  preserve_layout : bool;
  processing_timeout : Z;
  max_file_size_mb : Z
}.

Record DocumentStructure : Type := {
  title : string;
  authors : list string;
  sections : list pydict;
  tables : list pydict;
  images : list pydict;
  formulas : list pydict;
  metadata : pydict;
  raw_text : string;
  markdown_content : string;
  processing_stats : pydict
}.

Record DoclingProcessor : Type := {
  config : DoclingConfig;
  converter : option DocumentConverter;
  chunker : option HybridChunker;
  ocr_initialized : bool
}.

(** ** State *)

Inductive log_level : Type := INFO | WARNING | ERROR.

(** A log record: level, message template and the exception it reports. *)
Record log_record : Type := {
  level : log_level;
  message : string;
  cause : option exn
}.

(** What lies outside the processor object: files, clock, the calls made to
    the engine so far (oldest first) and the log. *)
Record world : Type := {
  fs : filesystem;
  clock : Z;
  constructions : list PdfPipelineOptions;
  conversions : list (DocumentConverter * string);
  log : list log_record
}.

Record state : Type := {
  self : DoclingProcessor;
  env : world
}.

(** A computation either raises or returns, and leaves a state behind in
    both cases. *)
Definition M (A : Type) : Type := state -> (exn + A) * state.

Definition ret {A} (a : A) : M A := fun s => (inr a, s).

Definition raise {A} (e : exn) : M A := fun s => (inl e, s).

Definition bind {A B} (m : M A) (k : A -> M B) : M B :=
  fun s =>
    match m s with
    | (inr a, s') => k a s'
    | (inl e, s') => (inl e, s')
    end.

(** [try: m  except Exception as e: h e] *)
Definition try_except {A} (m : M A) (h : exn -> M A) : M A :=
  fun s =>
    match m s with
    | (inr a, s') => (inr a, s')
    | (inl e, s') => h e s'
    end.

Declare Scope py_scope.
Delimit Scope py_scope with py.
Notation "x <- m ;; k" := (bind m (fun x => k))
  (at level 61, m at next level, right associativity) : py_scope.
Notation "m ;; k" := (bind m (fun _ => k))
  (at level 61, right associativity) : py_scope.
Open Scope py_scope.

(** *** Reading and writing the state *)

Definition get_self : M DoclingProcessor := fun s => (inr (self s), s).

Definition get_env : M world := fun s => (inr (env s), s).

Definition set_converter (c : DocumentConverter) : M unit :=
  fun s =>
    (inr tt,
     {| self := {| config := config (self s);
                   converter := Some c;
                   chunker := chunker (self s);
                   ocr_initialized := ocr_initialized (self s) |};
        env := env s |}).

Definition set_ocr_initialized (b : bool) : M unit :=
  fun s =>
    (inr tt,
     {| self := {| config := config (self s);
                   converter := converter (self s);
                   chunker := chunker (self s);
                   ocr_initialized := b |};
        env := env s |}).

Definition with_fs (w : world) (fs' : filesystem) : world :=
  {| fs := fs'; clock := clock w; constructions := constructions w;
     conversions := conversions w; log := log w |}.

Definition with_log (w : world) (l : list log_record) : world :=
  {| fs := fs w; clock := clock w; constructions := constructions w;
     conversions := conversions w; log := l |}.

(** [logger.info], [logger.warning], [logger.error] *)
Definition logger (lvl : log_level) (msg : string) (e : option exn) : M unit :=
  fun s =>
    (inr tt,
     {| self := self s;
        env := with_log (env s)
                 (log (env s) ++ [{| level := lvl; message := msg; cause := e |}]) |}).

(** A file-system call: the new file system, or the error it raises. *)
Definition fs_call (f : filesystem -> exn + filesystem) : M unit :=
  fun s =>
    match f (fs (env s)) with
    | inr fs' => (inr tt, {| self := self s; env := with_fs (env s) fs' |})
    | inl e => (inl e, s)
    end.

(** [datetime.now()], in microseconds. *)
Definition now : M Z := fun s => (inr (clock (env s)), s).

Section Processor.
Variable E : extern.

(** [DocumentConverter(format_options={InputFormat.PDF: ...})]: the call is
    recorded whether it returns or raises. *)
Definition construct_converter (opts : PdfPipelineOptions) : M DocumentConverter :=
  fun s =>
    let w := env s in
    let n := length (constructions w) in
    let s' :=
      {| self := self s;
         env := {| fs := fs w; clock := clock w;
                   constructions := constructions w ++ [opts];
                   conversions := conversions w; log := log w |} |} in
    match new_converter E n opts with
    | Some e => (inl e, s')
    | None => (inr {| serial := n; pipeline_options := opts |}, s')
    end.

(** [converter.convert(file_path).document] *)
Definition call_convert (c : DocumentConverter) (file_path : string)
  : M DoclingDocument :=
  fun s =>
    let w := env s in
    let n := length (conversions w) in
    let s' :=
      {| self := self s;
         env := {| fs := fs w; clock := clock w + convert_duration E n;
                   constructions := constructions w;
                   conversions := conversions w ++ [(c, file_path)];
                   log := log w |} |} in
    match convert E n c file_path with
    | inl e => (inl e, s')
    | inr d => (inr d, s')
    end.

Definition _initialize_base_converter : M unit :=
  try_except
    (me <- get_self ;;
     c <- construct_converter
            {| do_ocr := false;
               do_table_structure := extract_tables (config me);
               generate_page_images := extract_images (config me) |} ;;
     set_converter c ;;
     logger INFO "Base DocumentConverter initialized (OCR disabled)" None)
    (fun e =>
       logger ERROR "Failed to initialize base DocumentConverter" (Some e) ;;
       raise e).

Definition _initialize_ocr_converter (ocr_languages : string) : M unit :=
  try_except
    (me <- get_self ;;
     c <- construct_converter
            {| do_ocr := true;
               do_table_structure := extract_tables (config me);
               generate_page_images := extract_images (config me) |} ;;
     set_converter c ;;
     set_ocr_initialized true ;;
     logger INFO "OCR DocumentConverter initialized with languages" None)
    (fun e =>
       logger ERROR "Failed to initialize OCR DocumentConverter" (Some e) ;;
       (* Fallback to the base converter *)
       _initialize_base_converter ;;
       raise e).

(** [DoclingProcessor.__init__] *)
Definition __init__ (cfg : DoclingConfig) (w : world) : (exn + unit) * state :=
  (fs_call (fun fs => fs_mkdir fs (cache_dir cfg)) ;;
   fs_call (fun fs => fs_mkdir fs (temp_dir cfg)) ;;
   _initialize_base_converter ;;
   logger INFO "DoclingProcessor initialized with conditional OCR loading" None)
    {| self := {| config := cfg; converter := None; chunker := None;
                  ocr_initialized := false |};
       env := w |}.

(** [_extract_table_content].  Reading an attribute never raises in this
    model, so the [except] branch of the source has no counterpart. *)
Definition _extract_table_content (table : table_item) : pydict :=
  match table_data table with
  | Some data =>
      [("type", PStr "table");
       ("data", data);
       ("rows", getattr_default (table_rows table) (PInt 0));
       ("columns", getattr_default (table_columns table) (PInt 0))]
  | None =>
      [("type", PStr "table");
       ("content", PStr (table_repr table));
       ("extracted_method", PStr "string_representation")]
  end.

Definition section_record (i : nat) (section : section_item) : pydict :=
  [("id", PInt (Z.of_nat i));
   ("title", getattr_default (section_title section)
               (PStr ("Section " ++ decimal (i + 1))));
   ("content", getattr_default (section_text section) (PStr ""));
   ("level", getattr_default (section_level section) (PInt 1));
   ("page", getattr_default (section_page section) (PInt 1))].

(** [table_data] as it is when it is dumped, before [file_path] is added. *)
Definition table_record (i : nat) (table : table_item) : pydict :=
  [("id", PInt (Z.of_nat i));
   ("page", getattr_default (table_page table) (PInt 1));
   ("content", as_pyval (_extract_table_content table));
   ("bbox", getattr_default (table_bbox table) PNone)].

Definition table_file (output_dir : string) (i : nat) : string :=
  path_join output_dir ("table_" ++ decimal i ++ ".json").

Definition image_file (output_dir : string) (i : nat) : string :=
  path_join output_dir ("image_" ++ decimal i ++ ".png").

(** [image_data]; no file is written for an image. *)
Definition image_record (output_dir : string) (i : nat) (image : image_item)
  : pydict :=
  let image_data' :=
    [("id", PInt (Z.of_nat i));
     ("page", getattr_default (image_page image) (PInt 1));
     ("bbox", getattr_default (image_bbox image) PNone);
     ("format", getattr_default (image_format image) (PStr "unknown"))] in
  match image_data image with
  | Some _ => dict_set image_data' "file_path" (PStr (image_file output_dir i))
  | None => image_data'
  end.

(** How deep the [default] hook of one [json.dump] may nest. *)
Definition recursion_limit : nat := 1000.

(** [json.dump(value, f, ensure_ascii=False, indent=2,
    default=safe_serialize_tabledata)] into the file just opened at [p]. *)
Definition json_dump (value : pyval) (p : string) : M unit :=
  fs_call (fun fs => inr (fs_put fs p (json_text E value))) ;;
  if json_encode_ok (safe_serialize_tabledata (py_str E)) recursion_limit value
  then ret tt
  else raise (TypeError "Object is not JSON serializable").

(** One turn of the loop over [docling_document.tables]. *)
Definition extract_table (output_dir : string) (i : nat) (table : table_item)
  : M pydict :=
  let table_data' := table_record i table in
  fs_call (fun fs => fs_write fs (table_file output_dir i) "") ;;
  json_dump (as_pyval table_data') (table_file output_dir i) ;;
  ret (dict_set table_data' "file_path" (PStr (table_file output_dir i))).

Fixpoint tables_loop (output_dir : string) (i : nat) (ts : list table_item)
  : M (list pydict) :=
  match ts with
  | [] => ret []
  | table :: ts' =>
      table_data' <- extract_table output_dir i table ;;
      rest <- tables_loop output_dir (S i) ts' ;;
      ret (table_data' :: rest)
  end.

(** [enumerate] over a list with a pure body. *)
Fixpoint enumerate_map {A B} (f : nat -> A -> B) (i : nat) (l : list A) : list B :=
  match l with
  | [] => []
  | x :: l' => f i x :: enumerate_map f (S i) l'
  end.

(** [getattr(obj, name, '') or fallback] *)
Definition attr_or (a : option string) (fallback : string) : string :=
  match a with
  | Some (String c s) => String c s
  | _ => fallback
  end.

(** The chunking step: the number of chunks, 0 when there is no chunker, no
    Markdown, or the chunker raises. *)
Definition count_chunks (doc : DoclingDocument) (markdown : string) : M nat :=
  me <- get_self ;;
  match chunker me, markdown with
  | Some ch, String _ _ =>
      try_except
        (match chunk E ch doc with
         | inr n => logger INFO "Document chunked" None ;; ret n
         | inl e => raise e
         end)
        (fun e => logger WARNING "Chunking failed" (Some e) ;; ret O)
  | _, _ => ret O
  end.

Definition _extract_document_structure
  (docling_document : DoclingDocument) (original_file_path output_dir : string)
  : M DocumentStructure :=
  try_except
    (let title' := attr_or (doc_title docling_document) (path_stem original_file_path) in
     let markdown_content' := doc_markdown docling_document in
     let raw_text' := attr_or (doc_text docling_document) markdown_content' in
     let total_pages :=
       match doc_pages docling_document with
       | Some pages => length pages
       | None => 1%nat
       end in
     let sections' :=
       match doc_sections docling_document with
       | Some l => enumerate_map section_record 0 l
       | None => []
       end in
     tables' <- match doc_tables docling_document with
                | Some l => tables_loop output_dir 0 l
                | None => ret []
                end ;;
     let images' :=
       match doc_images docling_document with
       | Some l => enumerate_map (image_record output_dir) 0 l
       | None => []
       end in
     chunks <- count_chunks docling_document markdown_content' ;;
     me <- get_self ;;
     logger INFO "Document structure extracted" None ;;
     ret {| title := title';
            authors := [];
            sections := sections';
            tables := tables';
            images := images';
            formulas := [];
            metadata :=
              [("original_file", PStr original_file_path);
               ("total_pages", PInt (Z.of_nat total_pages));
               ("sections_count", PInt (Z.of_nat (length sections')));
               ("tables_count", PInt (Z.of_nat (length tables')));
               ("images_count", PInt (Z.of_nat (length images')));
               ("chunks_count", PInt (Z.of_nat chunks));
               ("has_ocr_content", PBool (ocr_initialized me));
               ("extraction_method", PStr "docling_v2");
               ("content_length", PInt (Z.of_nat (String.length raw_text')))];
            raw_text := raw_text';
            markdown_content := markdown_content';
            processing_stats := [] |})
    (fun e =>
       logger ERROR "Error extracting document structure" (Some e) ;;
       logger ERROR "traceback" (Some e) ;;
       raise e).

Definition set_processing_stats (d : DocumentStructure) (stats : pydict)
  : DocumentStructure :=
  {| title := title d; authors := authors d; sections := sections d;
     tables := tables d; images := images d; formulas := formulas d;
     metadata := metadata d; raw_text := raw_text d;
     markdown_content := markdown_content d; processing_stats := stats |}.

Definition process_document
  (file_path output_dir : string) (use_ocr : bool) (ocr_languages : string)
  : M DocumentStructure :=
  start_time <- now ;;
  try_except
    (logger INFO "Starting document processing" None ;;
     logger INFO "   OCR enabled" None ;;
     logger INFO "   OCR languages" None ;;
     w <- get_env ;;
     (if fs_exists (fs w) file_path then ret tt
      else raise (FileNotFoundError file_path)) ;;
     let file_size := fs_getsize (fs w) file_path in
     me <- get_self ;;
     let max_size := max_file_size_mb (config me) * 1024 * 1024 in
     (if file_size >? max_size
      then raise (ValueError_file_too_large file_size max_size)
      else ret tt) ;;
     (if use_ocr && negb (ocr_initialized me) then
        logger INFO "Initializing OCR converter..." None ;;
        _initialize_ocr_converter ocr_languages
      else if negb use_ocr && ocr_initialized me then
        logger INFO "Switching back to base converter..." None ;;
        _initialize_base_converter
      else ret tt) ;;
     logger INFO "Converting document with Docling..." None ;;
     me <- get_self ;;
     docling_document <-
       match converter me with
       | Some c => call_convert c file_path
       | None => raise (AttributeError "'NoneType' object has no attribute 'convert'")
       end ;;
     document_structure <-
       _extract_document_structure docling_document file_path output_dir ;;
     end_time <- now ;;
     let document_structure' :=
       set_processing_stats document_structure
         [("processing_time_seconds", PFloat (end_time - start_time) 1000000);
          ("file_size_bytes", PInt file_size);
          ("ocr_used", PBool use_ocr);
          ("ocr_languages", if use_ocr then PStr ocr_languages else PNone);
          ("docling_version", PStr "2.0+");
          ("timestamp", PStr (isoformat E end_time))] in
     logger INFO "Document processing completed" None ;;
     ret document_structure')
    (fun e =>
       logger ERROR "Error processing document" (Some e) ;;
       logger ERROR "traceback" (Some e) ;;
       raise e).

(** *** Markdown export *)

Definition newline : string := String "010"%char EmptyString.

(** [bool(value)] *)
Definition py_truthy (v : pyval) : bool :=
  match v with
  | PNone => false
  | PBool b => b
  | PInt n => negb (n =? 0)
  | PFloat n _ => negb (n =? 0)
  | PStr s | PBytes s => negb (String.eqb s "")
  | PList l | PTuple l => match l with [] => false | _ => true end
  | PDict l => match l with [] => false | _ => true end
  | PIterable _ | PObject _ _ | POpaque _ => true
  end.

(** ["#" * n] *)
Fixpoint hashes (n : nat) : string :=
  match n with
  | O => ""
  | S n' => String "#"%char (hashes n')
  end.

(** ["#" * min(level + 1, 6)]: the sum is defined on numbers, and a
    sequence is repeated by an [int] only; [min] hands back the [int] 6 for
    a [float] level above 5 and the [float] sum otherwise. *)
Definition heading_marks (level : pyval) : exn + string :=
  match level with
  | PInt n => inr (hashes (Z.to_nat (Z.min (n + 1) 6)))
  | PBool b => inr (hashes (Z.to_nat (Z.min ((if b then 1 else 0) + 1) 6)))
  | PFloat num den =>
      if num >? 5 * Z.pos den then inr (hashes 6)
      else inl (TypeError "can't multiply sequence by non-int of type 'float'")
  | _ => inl (TypeError "unsupported operand type(s) for +")
  end.

Fixpoint section_lines (ss : list pydict) : exn + list string :=
  match ss with
  | [] => inr []
  | section :: ss' =>
      match heading_marks (dict_get_default section "level" (PInt 1)) with
      | inl e => inl e
      | inr marks =>
          match section_lines ss' with
          | inl e => inl e
          | inr rest =>
              inr ((marks ++ " "
                      ++ py_str E (dict_get_default section "title"
                                     (PStr "Untitled Section"))
                      ++ newline)
                   :: (py_str E (dict_get_default section "content" (PStr ""))
                         ++ newline)
                   :: rest)
          end
      end
  end.

Fixpoint table_lines (i : nat) (ts : list pydict) : list string :=
  match ts with
  | [] => []
  | table :: ts' =>
      ("### Table " ++ decimal (i + 1) ++ newline)
      :: ("Page: " ++ py_str E (dict_get_default table "page" (PStr "N/A"))
            ++ newline)
      :: (if py_truthy (dict_get_default table "file_path" PNone)
          then ["Data file: "
                  ++ py_str E (dict_get_default table "file_path" PNone)
                  ++ newline]
          else [])
      ++ table_lines (S i) ts'
  end.

Definition _create_markdown_from_structure (document_structure : DocumentStructure)
  : exn + string :=
  match section_lines (sections document_structure) with
  | inl e => inl e
  | inr body =>
      inr
        (String.concat newline
           ((match title document_structure with
             | "" => []
             | t => ["# " ++ t ++ newline]
             end)
            ++ (match authors document_structure with
                | [] => []
                | a => ["**Authors:** " ++ String.concat ", " a ++ newline]
                end)
            ++ body
            ++ (match tables document_structure with
                | [] => []
                | ts => ("## Tables" ++ newline) :: table_lines 0 ts
                end)))
  end.

Definition export_to_markdown
  (document_structure : DocumentStructure) (output_file : string) : M string :=
  try_except
    (markdown_content' <-
       match markdown_content document_structure with
       | "" =>
           match _create_markdown_from_structure document_structure with
           | inr text => ret text
           | inl e => raise e
           end
       | text => ret text
       end ;;
     fs_call (fun fs => fs_write fs output_file markdown_content') ;;
     logger INFO "Markdown exported" None ;;
     ret markdown_content')
    (fun e =>
       logger ERROR "Error exporting to markdown" (Some e) ;;
       raise e).

(** *** Cleanup *)

(** [file_path.suffix in ['.md', '.json']] *)
Definition is_main_file (p : string) : bool :=
  String.eqb (path_suffix p) ".md" || String.eqb (path_suffix p) ".json".

Fixpoint cleanup_loop (keep_main_files : bool) (ps : list string) : M unit :=
  match ps with
  | [] => ret tt
  | file_path :: ps' =>
      (if keep_main_files && is_main_file file_path then ret tt
       else fs_call (fun fs => fs_unlink fs file_path)) ;;
      cleanup_loop keep_main_files ps'
  end.

Definition cleanup_temp_files (output_dir : string) (keep_main_files : bool)
  : M unit :=
  try_except
    (w <- get_env ;;
     if fs_exists (fs w) output_dir then
       cleanup_loop keep_main_files (fs_glob_star (fs w) output_dir) ;;
       logger INFO "Cleaned up temporary files" None
     else ret tt)
    (fun e => logger WARNING "Failed to cleanup temp files" (Some e)).

End Processor.



(** ** Concrete collaborators and inputs *)

(** [DoclingConfig()] with the defaults of the source. *)
Definition default_config : DoclingConfig :=
  {| model_path := "/mnt/storage/models/docling";
     cache_dir := "/mnt/storage/models/docling";
     temp_dir := "/app/temp";
     use_gpu := true;
     max_workers := 4;
     enable_ocr_by_default := false;
     ocr_languages := ["eng"; "rus"; "chi_sim"];
     ocr_confidence_threshold := (8, 10%positive);
     extract_tables := true;
     extract_images := true;
     extract_formulas := true;
     preserve_layout := true;
     processing_timeout := 3600;
     max_file_size_mb := 500 |}.

(** An engine whose constructor outcome is [ctor] and whose every
    conversion returns [doc]. *)
Definition engine (ctor : nat -> PdfPipelineOptions -> option exn)
  (doc : DoclingDocument) : extern :=
  {| py_str := fun v => match v with PStr s => s | _ => "<object>" end;
     json_text := fun _ => "{}";
     isoformat := fun _ => "1970-01-01T00:00:00";
     new_converter := ctor;
     convert := fun _ _ _ => inr doc;
     convert_duration := fun _ => 1;
     chunk := fun _ _ => inr 0%nat |}.

Definition always_builds : nat -> PdfPipelineOptions -> option exn :=
  fun _ _ => None.

(** A document that exposes nothing but its Markdown rendering. *)
Definition bare_document : DoclingDocument :=
  {| doc_title := None; doc_text := None; doc_markdown := "# Report";
     doc_pages := None; doc_sections := None; doc_tables := None;
     doc_images := None |}.

(** A working directory holding one input file and an output directory. *)
Definition small_world : world :=
  {| fs := [("out", Dir); ("in.pdf", File "%PDF-1.7")];
     clock := 0; constructions := []; conversions := []; log := [] |}.

(** The state [DoclingProcessor(cfg)] leaves behind. *)
Definition constructed (E : extern) (cfg : DoclingConfig) (w : world) : state :=
  snd (__init__ E cfg w).

(** A table whose [data] is a dictionary keyed by (row, column) tuples. *)
Definition tuple_keyed_table : table_item :=
  {| table_page := Some (PInt 1); table_bbox := None;
     table_data := Some (PDict [(PTuple [PInt 0; PInt 0], PStr "cell")]);
     table_rows := Some (PInt 1); table_columns := Some (PInt 1);
     table_repr := "<table>" |}.

Definition tuple_keyed_document : DoclingDocument :=
  {| doc_title := None; doc_text := None; doc_markdown := "# Report";
     doc_pages := None; doc_sections := None;
     doc_tables := Some [tuple_keyed_table]; doc_images := None |}.

(** The state a call leaves behind, whether it returned or raised. *)
Definition after {A} (m : M A) (s : state) : state := snd (m s).

Definition returned {A} (m : M A) (s : state) : bool :=
  match fst (m s) with inr _ => true | inl _ => false end.

(** [DoclingConfig(max_file_size_mb=0)] *)
Definition zero_ceiling_config : DoclingConfig :=
  {| model_path := model_path default_config;
     cache_dir := cache_dir default_config;
     temp_dir := temp_dir default_config;
     use_gpu := true; max_workers := 4; enable_ocr_by_default := false;
     ocr_languages := ocr_languages default_config;
     ocr_confidence_threshold := ocr_confidence_threshold default_config;
     extract_tables := true; extract_images := true; extract_formulas := true;
     preserve_layout := true; processing_timeout := 3600;
     max_file_size_mb := 0 |}.

(** The pipeline options the two initialisers pass to the constructor. *)
Definition base_options (cfg : DoclingConfig) : PdfPipelineOptions :=
  {| do_ocr := false;
     do_table_structure := extract_tables cfg;
     generate_page_images := extract_images cfg |}.

Definition ocr_options (cfg : DoclingConfig) : PdfPipelineOptions :=
  {| do_ocr := true;
     do_table_structure := extract_tables cfg;
     generate_page_images := extract_images cfg |}.


(** A constructor that works once, for [__init__], and never again. *)
Definition builds_once : nat -> PdfPipelineOptions -> option exn :=
  fun n opts =>
    match n with
    | O => None
    | _ => Some (EngineError (if do_ocr opts then "OCR models not found"
                              else "out of memory"))
    end.

(** A document whose page collection is there and empty, as the engine
    returns for an input without pages. *)
Definition pageless_document : DoclingDocument :=
  {| doc_title := Some "Notes"; doc_text := None; doc_markdown := "# Notes";
     doc_pages := Some []; doc_sections := None; doc_tables := None;
     doc_images := None |}.

(** A document with one table and two images; the second image carries no
    [data] attribute. *)
Definition illustrated_document : DoclingDocument :=
  {| doc_title := Some "Atlas"; doc_text := Some "plates"; doc_markdown := "# Atlas";
     doc_pages := Some [PInt 1; PInt 2]; doc_sections := None;
     doc_tables :=
       Some [{| table_page := Some (PInt 1); table_bbox := None;
                table_data := Some (PList [PList [PStr "a"; PInt 1]]);
                table_rows := Some (PInt 1); table_columns := Some (PInt 2);
                table_repr := "<table>" |}];
     doc_images :=
       Some [{| image_page := Some (PInt 1); image_bbox := None;
                image_format := Some (PStr "png");
                image_data := Some (PBytes "PNG") |};
             {| image_page := Some (PInt 2); image_bbox := None;
                image_format := None; image_data := None |}] |}.



(** An output directory that holds regular files only. *)
Definition flat_world : world :=
  {| fs := [("out", Dir); ("out/scratch.tmp", File "x");
            ("out/report.md", File "# Report"); ("out/table_0.json", File "{}");
            ("out/page.png", File "PNG"); ("in.pdf", File "%PDF-1.7")];
     clock := 0; constructions := []; conversions := []; log := [] |}.

Definition idle (w : world) : state :=
  {| self := {| config := default_config; converter := None; chunker := None;
                ocr_initialized := false |};
     env := w |}.

(** ** The rest of the class *)

Definition set_chunker (c : option HybridChunker) : M unit :=
  fun s =>
    (inr tt,
     {| self := {| config := config (self s);
                   converter := converter (self s);
                   chunker := c;
                   ocr_initialized := ocr_initialized (self s) |};
        env := env s |}).

(** [_initialize_chunker].  [transformers_available] is the module flag
    [HF_TRANSFORMERS_AVAILABLE]; [build] is what loading the tokenizer and
    constructing the [HybridChunker] does: [None] when both return. *)
Definition _initialize_chunker (transformers_available : bool)
  (build : option exn) : M unit :=
  if negb transformers_available then
    logger WARNING "Transformers not available, skipping chunker initialization"
      None
  else
    try_except
      (match build with
       | Some e => raise e
       | None => ret tt
       end ;;
       set_chunker (Some {| max_tokens := 1024; overlap_tokens := 128 |}) ;;
       logger INFO "HybridChunker initialized" None)
      (fun e =>
         logger WARNING "Failed to initialize chunker" (Some e) ;;
         set_chunker None).

(** [config.dict()] *)
Definition config_dict (cfg : DoclingConfig) : pydict :=
  [("model_path", PStr (model_path cfg));
   ("cache_dir", PStr (cache_dir cfg));
   ("temp_dir", PStr (temp_dir cfg));
   ("use_gpu", PBool (use_gpu cfg));
   ("max_workers", PInt (max_workers cfg));
   ("enable_ocr_by_default", PBool (enable_ocr_by_default cfg));
   ("ocr_languages", PList (map PStr (ocr_languages cfg)));
   ("ocr_confidence_threshold",
    PFloat (fst (ocr_confidence_threshold cfg)) (snd (ocr_confidence_threshold cfg)));
   ("extract_tables", PBool (extract_tables cfg));
   ("extract_images", PBool (extract_images cfg));
   ("extract_formulas", PBool (extract_formulas cfg));
   ("preserve_layout", PBool (preserve_layout cfg));
   ("processing_timeout", PInt (processing_timeout cfg));
   ("max_file_size_mb", PInt (max_file_size_mb cfg))].

(** [get_processing_stats] *)
Definition get_processing_stats (transformers_available : bool) : M pydict :=
  me <- get_self ;;
  ret [("converter_initialized",
        PBool match converter me with Some _ => true | None => false end);
       ("ocr_initialized", PBool (ocr_initialized me));
       ("chunker_available",
        PBool match chunker me with Some _ => true | None => false end);
       ("config", as_pyval (config_dict (config me)));
       ("transformers_available", PBool transformers_available)].

(** ** The factory *)

(** [c.lower()] on the ASCII letters; the bytes of any other character are
    left alone, which is all the comparison with ['true'] needs. *)
Definition ascii_lower (c : ascii) : ascii :=
  let n := nat_of_ascii c in
  if (65 <=? n)%nat && (n <=? 90)%nat then ascii_of_nat (n + 32) else c.

Fixpoint lower (s : string) : string :=
  match s with
  | EmptyString => EmptyString
  | String c s' => String (ascii_lower c) (lower s')
  end.

(** The process environment and the two conversions the factory applies to
    its values: [os.getenv], [int] and [float]; the conversions raise
    [ValueError] on a string they cannot read. *)
Record environ : Type := {
  getenv : string -> option string;
  py_int : string -> exn + Z;
  py_float : string -> exn + Z * positive
}.

(** [os.getenv(key, default)] *)
Definition getenv_default (vars : environ) (key dflt : string) : string :=
  match getenv vars key with
  | Some v => v
  | None => dflt
  end.

(** [os.getenv(key, default).lower() == 'true'] *)
Definition env_flag (vars : environ) (key dflt : string) : bool :=
  String.eqb (lower (getenv_default vars key dflt)) "true".

(** The [DoclingConfig(...)] call of [create_docling_processor_from_env]:
    the keyword arguments are evaluated in the order they are written, so
    the first conversion that raises decides the error. *)
Definition config_from_env (vars : environ) : exn + DoclingConfig :=
  match py_int vars (getenv_default vars "DOCLING_MAX_WORKERS" "4") with
  | inl e => inl e
  | inr workers =>
      match py_float vars (getenv_default vars "OCR_CONFIDENCE_THRESHOLD" "0.8") with
      | inl e => inl e
      | inr threshold =>
          match py_int vars (getenv_default vars "PROCESSING_TIMEOUT_MINUTES" "60") with
          | inl e => inl e
          | inr minutes =>
              match py_int vars (getenv_default vars "MAX_FILE_SIZE_MB" "500") with
              | inl e => inl e
              | inr megabytes =>
                  inr {| model_path :=
                           getenv_default vars "DOCLING_MODEL_PATH"
                             "/mnt/storage/models/docling";
                         cache_dir :=
                           getenv_default vars "DOCLING_HOME"
                             "/mnt/storage/models/docling";
                         temp_dir := getenv_default vars "TEMP_DIR" "/app/temp";
                         use_gpu := env_flag vars "DOCLING_USE_GPU" "true";
                         max_workers := workers;
                         enable_ocr_by_default :=
                           env_flag vars "DEFAULT_USE_OCR" "false";
                         ocr_languages := ["eng"; "rus"; "chi_sim"];
                         ocr_confidence_threshold := threshold;
                         extract_tables :=
                           env_flag vars "DEFAULT_EXTRACT_TABLES" "true";
                         extract_images :=
                           env_flag vars "DEFAULT_EXTRACT_IMAGES" "true";
                         extract_formulas := true;
                         preserve_layout := true;
                         processing_timeout := minutes * 60;
                         max_file_size_mb := megabytes |}
              end
          end
      end
  end.

(** [create_docling_processor_from_env]: the processor, or the error of the
    configuration or of [__init__], and the world either leaves. *)
Definition create_docling_processor_from_env (E : extern) (vars : environ)
  (w : world) : (exn + DoclingProcessor) * world :=
  match config_from_env vars with
  | inl e => (inl e, w)
  | inr cfg =>
      match __init__ E cfg w with
      | (inr _, s) => (inr (self s), env s)
      | (inl e, s) => (inl e, env s)
      end
  end.

(** ** Relating the states before and after a call *)

(** [preserves R m]: however [m] ends, the state it leaves is related by
    [R] to the state it started in. *)
Definition preserves {A} (R : state -> state -> Prop) (m : M A) : Prop :=
  forall s r s', m s = (r, s') -> R s s'.

(** [evolves touch s s']: from [s] to [s'] the configuration and the chunker
    are the same, [ocr_initialized] has not been cleared, no path outside
    [touch] has changed, and the records of constructor calls, of
    conversions and of log lines have only grown. *)
Definition evolves (touch : string -> Prop) (s s' : state) : Prop :=
  config (self s') = config (self s) /\
  chunker (self s') = chunker (self s) /\
  (ocr_initialized (self s) = true -> ocr_initialized (self s') = true) /\
  (forall q, ~ touch q -> fs_lookup (fs (env s')) q = fs_lookup (fs (env s)) q) /\
  (exists l, constructions (env s') = (constructions (env s) ++ l)%list) /\
  (exists l, conversions (env s') = (conversions (env s) ++ l)%list) /\
  (exists l, log (env s') = (log (env s) ++ l)%list).


(** The paths [process_document] may write: the table side files of the
    output directory. *)
Definition side_file (output_dir q : string) : Prop :=
  exists k, q = table_file output_dir k.

(** [quiet s s']: the processor object and the record of engine calls are
    the same in [s'] as in [s]. *)
Definition quiet (s s' : state) : Prop :=
  self s' = self s /\
  constructions (env s') = constructions (env s) /\
  conversions (env s') = conversions (env s).


(** An object as the engine hands them over: a table cell with a private
    cache, raw bytes and a nested bounding box. *)
Definition sample_cell : pyval :=
  PObject "TableCell"
    [("text", PStr "42"); ("_cache", POpaque "weakref");
     ("row", PInt 0); ("raw", PBytes "42");
     ("bbox", PObject "BoundingBox" [("l", PInt 1); ("t", PInt 2)])].

(** What the loop over [obj.__dict__.items()] stores for an attribute
    value: the value itself when [json.dumps] accepts it, and otherwise its
    serialization, the list of its serialized items, or its [str]. *)
Definition attribute_value (py_str : pyval -> string) (v : pyval) : pyval :=
  if json_dumps_ok v then v
  else
    match v with
    | PObject _ _ => safe_serialize_tabledata py_str v
    | PList l | PTuple l | PIterable l =>
        PList (map (safe_serialize_tabledata py_str) l)
    | PDict kvs => PList (map (fun e => safe_serialize_tabledata py_str (fst e)) kvs)
    | other => PStr (py_str other)
    end.

(** A process environment in which [DOCLING_MAX_WORKERS] is not a number.
    Its [int] reads decimal digits only; the error it hands out stands for
    the [ValueError] of the builtin. *)
Definition digits_only (s : string) : exn + Z :=
  match s, NilEmpty.uint_of_string s with
  | String _ _, Some d => inr (Z.of_nat (Nat.of_uint d))
  | _, _ => inl (EngineError "ValueError: invalid literal for int() with base 10")
  end.

Definition misconfigured_environ : environ :=
  {| getenv := fun key => if String.eqb key "DOCLING_MAX_WORKERS"
                          then Some "four" else None;
     py_int := digits_only;
     py_float := fun _ => inr (8, 10%positive) |}.

(** A process environment that sets the timeout, a flag and the cache
    directory. *)
Definition tuned_environ : environ :=
  {| getenv := fun key =>
                 if String.eqb key "PROCESSING_TIMEOUT_MINUTES" then Some "5"
                 else if String.eqb key "DOCLING_USE_GPU" then Some "1"
                 else if String.eqb key "DOCLING_HOME" then Some "cache"
                 else None;
     py_int := digits_only;
     py_float := fun _ => inr (8, 10%positive) |}.

(** * Properties *)

(** ** The serializer *)




Section SerializeFacts.
Variable py_str : pyval -> string.



End SerializeFacts.




(** ** The converter handle *)

(** C1, evaluated.  A fresh processor is called with [use_ocr] = True,
    False, True.  All three calls return.  The second call rebuilds the base
    handle and leaves [ocr_initialized] set, so the third call, which
    toggles back to OCR, builds nothing: the constructor count stays at 3
    and the handle in effect has [do_ocr] = False. *)
Theorem C1_toggle_back_to_ocr_keeps_base_handle :
  let E := engine always_builds bare_document in
  let call use_ocr := process_document E "in.pdf" "out" use_ocr "eng" in
  let s0 := constructed E default_config small_world in
  let s1 := after (call true) s0 in
  let s2 := after (call false) s1 in
  let s3 := after (call true) s2 in
  (returned (call true) s0 && returned (call false) s1 && returned (call true) s2
   = true) /\
  map (fun s => length (constructions (env s))) [s0; s1; s2; s3]
  = [1; 2; 3; 3]%nat /\
  map (fun s => option_map (fun c => do_ocr (pipeline_options c)) (converter (self s)))
    [s0; s1; s2; s3]
  = [Some false; Some true; Some false; Some false] /\
  ocr_initialized (self s2) = true.
Proof.
  vm_compute. repeat split; reflexivity.
Qed.

(** ** Validation *)

(** C3.  An existing file larger than [max_file_size_mb * 1024 * 1024]
    bytes makes [process_document] raise the size error; no conversion and
    no construction has been requested, and processor and files are as
    before. *)
Theorem C3_oversized_file_rejected
  (E : extern) (s : state) (file_path output_dir : string) (use_ocr : bool)
  (languages : string) :
  fs_exists (fs (env s)) file_path = true ->
  fs_getsize (fs (env s)) file_path
  > max_file_size_mb (config (self s)) * 1024 * 1024 ->
  exists s',
    process_document E file_path output_dir use_ocr languages s
    = (inl (ValueError_file_too_large
              (fs_getsize (fs (env s)) file_path)
              (max_file_size_mb (config (self s)) * 1024 * 1024)), s') /\
    conversions (env s') = conversions (env s) /\
    constructions (env s') = constructions (env s) /\
    fs (env s') = fs (env s) /\
    self s' = self s.
Proof.
  intros Hex Hbig.
  unfold process_document, bind, try_except, now, logger, get_env, get_self,
    ret, raise; simpl.
  rewrite Hex; simpl.
  apply Z.gt_lt, Z.gtb_lt in Hbig. rewrite Hbig; simpl.
  eexists; repeat split.
Qed.

Lemma C3_oversized_file_rejected_witness :
  let E := engine always_builds bare_document in
  let s := constructed E zero_ceiling_config small_world in
  exists s',
    process_document E "in.pdf" "out" false "eng" s
    = (inl (ValueError_file_too_large
              (fs_getsize (fs (env s)) "in.pdf")
              (max_file_size_mb (config (self s)) * 1024 * 1024)), s') /\
    conversions (env s') = conversions (env s) /\
    constructions (env s') = constructions (env s) /\
    fs (env s') = fs (env s) /\
    self s' = self s.
Proof.
  intros E s.
  apply (@C3_oversized_file_rejected E s "in.pdf" "out" false "eng");
    vm_compute; reflexivity.
Defined.

Lemma size_check_passes (size max : Z) : size <= max -> (size >? max) = false.
Proof. intros H. rewrite Z.gtb_ltb. now apply Z.ltb_ge. Qed.



(** When the fallback construction raises too, its error is the one that
    propagates and the handle stays the one built before. *)
Lemma ocr_and_fallback_both_fail :
  let E := engine builds_once bare_document in
  let s := constructed E default_config small_world in
  let call := process_document E "in.pdf" "out" true "eng" in
  fst (call s) = inl (EngineError "out of memory") /\
  converter (self (after call s)) = converter (self s) /\
  length (constructions (env (after call s))) = 3%nat.
Proof.
  vm_compute. repeat split; reflexivity.
Qed.

(** ** Reading a successful run backwards *)

Lemma bind_inr {A B} (m : M A) (k : A -> M B) (s s' : state) (b : B) :
  bind m k s = (inr b, s') ->
  exists a s1, m s = (inr a, s1) /\ k a s1 = (inr b, s').
Proof.
  unfold bind. destruct (m s) as [[e|a] s1]; intros H; [discriminate|].
  now exists a, s1.
Qed.

(** A handler that ends in [raise] never turns a failure into a result. *)
Lemma try_except_reraise_inr {A} (m : M A) (h : exn -> M A) (s s' : state) (a : A) :
  (forall e s1, exists e' s2, h e s1 = (inl e', s2)) ->
  try_except m h s = (inr a, s') -> m s = (inr a, s').
Proof.
  unfold try_except. intros Hh. destruct (m s) as [[e|a'] s1]; intros H.
  - destruct (Hh e s1) as (e' & s2 & Heq). rewrite Heq in H. discriminate.
  - exact H.
Qed.

Lemma log_twice_and_raise {A} (m1 m2 : string) (e : exn) (s1 : state) :
  exists e' s2,
    (logger ERROR m1 (Some e) ;; logger ERROR m2 (Some e) ;; @raise A e) s1
    = (inl e', s2).
Proof. unfold bind, logger, raise; simpl. eauto. Qed.

Ltac inv_bind H :=
  let a := fresh "a" in
  let s1 := fresh "s" in
  let H1 := fresh "Hstep" in
  apply bind_inr in H; destruct H as (a & s1 & H1 & H).

(** Steps that only read or log: they return, and what they leave is known. *)
Ltac inv_prim H :=
  unfold logger, get_env, get_self, now, ret, set_converter,
    set_ocr_initialized in H;
  injection H as <- <-.

Lemma initialize_base_keeps_files (E : extern) (s s' : state) (r : exn + unit) :
  _initialize_base_converter E s = (r, s') ->
  fs (env s') = fs (env s) /\ conversions (env s') = conversions (env s).
Proof.
  unfold _initialize_base_converter, construct_converter, set_converter,
    bind, try_except, logger, get_self, raise; simpl.
  destruct (new_converter E _ _); simpl; intros H; injection H as <- <-;
    simpl; auto.
Qed.

Lemma initialize_ocr_keeps_files (E : extern) (l : string) (s s' : state)
  (r : exn + unit) :
  _initialize_ocr_converter E l s = (r, s') ->
  fs (env s') = fs (env s) /\ conversions (env s') = conversions (env s).
Proof.
  unfold _initialize_ocr_converter, _initialize_base_converter,
    construct_converter, set_converter, set_ocr_initialized,
    bind, try_except, logger, get_self, raise; simpl.
  destruct (new_converter E _ _); simpl.
  - rewrite length_app; simpl.
    destruct (new_converter E _ _); simpl; intros H; injection H as <- <-;
      simpl; auto.
  - intros H; injection H as <- <-; simpl; auto.
Qed.

Lemma switch_keeps_files (E : extern) (use_ocr flag : bool) (languages : string)
  (s s' : state) (r : exn + unit) :
  (if use_ocr && negb flag then
     logger INFO "Initializing OCR converter..." None ;;
     _initialize_ocr_converter E languages
   else if negb use_ocr && flag then
     logger INFO "Switching back to base converter..." None ;;
     _initialize_base_converter E
   else ret tt) s = (r, s') ->
  fs (env s') = fs (env s) /\ conversions (env s') = conversions (env s).
Proof.
  destruct (use_ocr && negb flag); [|destruct (negb use_ocr && flag)].
  - unfold bind, logger; simpl. intros H.
    now apply initialize_ocr_keeps_files in H.
  - unfold bind, logger; simpl. intros H.
    now apply initialize_base_keeps_files in H.
  - unfold ret. now intros H; injection H as <- <-.
Qed.

Lemma process_document_returns
  (E : extern) (file_path output_dir : string) (use_ocr : bool)
  (languages : string) (s s' : state) (ds : DocumentStructure) :
  process_document E file_path output_dir use_ocr languages s = (inr ds, s') ->
  exists s1 c doc s2 d0 s3 t0 t1,
    fs (env s1) = fs (env s) /\
    conversions (env s1) = conversions (env s) /\
    converter (self s1) = Some c /\
    convert E (length (conversions (env s1))) c file_path = inr doc /\
    fs (env s2) = fs (env s1) /\
    self s2 = self s1 /\
    _extract_document_structure E doc file_path output_dir s2 = (inr d0, s3) /\
    fs (env s') = fs (env s3) /\
    ds = set_processing_stats d0
           [("processing_time_seconds", PFloat (t1 - t0) 1000000);
            ("file_size_bytes", PInt (fs_getsize (fs (env s)) file_path));
            ("ocr_used", PBool use_ocr);
            ("ocr_languages", if use_ocr then PStr languages else PNone);
            ("docling_version", PStr "2.0+");
            ("timestamp", PStr (isoformat E t1))].
Proof.
  unfold process_document. intros H.
  inv_bind H. inv_prim Hstep.
  apply try_except_reraise_inr in H; [|intros; apply log_twice_and_raise].
  do 3 (inv_bind H; inv_prim Hstep).
  inv_bind H. inv_prim Hstep.
  inv_bind H.
  destruct (fs_exists _ _); [inv_prim Hstep | discriminate].
  inv_bind H. inv_prim Hstep.
  inv_bind H.
  destruct (_ >? _); [discriminate | inv_prim Hstep].
  inv_bind H. apply switch_keeps_files in Hstep. simpl in Hstep.
  destruct Hstep as [Hstep Hconv].
  inv_bind H. inv_prim Hstep0.
  inv_bind H. inv_prim Hstep0.
  inv_bind H.
  destruct (converter _) as [c|] eqn:Hc; [|discriminate].
  unfold call_convert in Hstep0.
  destruct (convert E _ c file_path) as [e|doc] eqn:Hdoc; [discriminate|].
  injection Hstep0 as <- <-.
  inv_bind H. rename Hstep0 into Hextract.
  inv_bind H. inv_prim Hstep0.
  inv_bind H. inv_prim Hstep0.
  inv_prim H.
  simpl in *.
  match type of Hextract with
  | _extract_document_structure _ _ _ _ ?st = _ =>
      eexists s0, c, doc, st, a0, s1, _, _
  end.
  repeat split; try eassumption; reflexivity.
Qed.

Lemma count_chunks_keeps (E : extern) (doc : DoclingDocument) (md : string)
  (s s' : state) (r : exn + nat) :
  count_chunks E doc md s = (r, s') ->
  fs (env s') = fs (env s) /\ self s' = self s.
Proof.
  unfold count_chunks, bind, get_self, try_except, logger, ret, raise; simpl.
  destruct (chunker (self s)) as [ch|]; [destruct md|].
  - intros H; injection H as <- <-; auto.
  - destruct (chunk E ch doc); simpl; intros H; injection H as <- <-; auto.
  - intros H; injection H as <- <-; auto.
Qed.

Lemma extract_returns
  (E : extern) (doc : DoclingDocument) (file_path output_dir : string)
  (s s' : state) (d0 : DocumentStructure) :
  _extract_document_structure E doc file_path output_dir s = (inr d0, s') ->
  exists tabs s1 chunks,
    match doc_tables doc with
    | Some l => tables_loop E output_dir 0 l
    | None => ret []
    end s = (inr tabs, s1) /\
    fs (env s') = fs (env s1) /\
    let secs := match doc_sections doc with
                | Some l => enumerate_map section_record 0 l
                | None => []
                end in
    let imgs := match doc_images doc with
                | Some l => enumerate_map (image_record output_dir) 0 l
                | None => []
                end in
    let text := attr_or (doc_text doc) (doc_markdown doc) in
    d0 = {| title := attr_or (doc_title doc) (path_stem file_path);
            authors := [];
            sections := secs;
            tables := tabs;
            images := imgs;
            formulas := [];
            metadata :=
              [("original_file", PStr file_path);
               ("total_pages",
                PInt (Z.of_nat match doc_pages doc with
                               | Some pages => length pages
                               | None => 1%nat
                               end));
               ("sections_count", PInt (Z.of_nat (length secs)));
               ("tables_count", PInt (Z.of_nat (length tabs)));
               ("images_count", PInt (Z.of_nat (length imgs)));
               ("chunks_count", PInt (Z.of_nat chunks));
               ("has_ocr_content", PBool (ocr_initialized (self s')));
               ("extraction_method", PStr "docling_v2");
               ("content_length", PInt (Z.of_nat (String.length text)))];
            raw_text := text;
            markdown_content := doc_markdown doc;
            processing_stats := [] |}.
Proof.
  unfold _extract_document_structure. intros H.
  apply try_except_reraise_inr in H; [|intros; apply log_twice_and_raise].
  inv_bind H. rename Hstep into Htabs.
  inv_bind H. apply count_chunks_keeps in Hstep. destruct Hstep as [Hfs Hself].
  inv_bind H. inv_prim Hstep.
  inv_bind H. inv_prim Hstep.
  inv_prim H. simpl.
  exists a, s0, a0. repeat split; assumption.
Qed.

(** ** The returned structure *)



(** C8, as amended.  When [process_document] returns, the three counts in
    the metadata equal the lengths of the structure's lists, and
    [total_pages] is the length of the converted document's page collection
    when it has one (0 when that is empty) and 1 when it has none. *)
Theorem C8_metadata_counts
  (E : extern) (file_path output_dir : string) (use_ocr : bool)
  (languages : string) (s s' : state) (ds : DocumentStructure) :
  process_document E file_path output_dir use_ocr languages s = (inr ds, s') ->
  exists c doc,
    convert E (length (conversions (env s))) c file_path = inr doc /\
    dict_get (metadata ds) "sections_count"
    = Some (PInt (Z.of_nat (length (sections ds)))) /\
    dict_get (metadata ds) "tables_count"
    = Some (PInt (Z.of_nat (length (tables ds)))) /\
    dict_get (metadata ds) "images_count"
    = Some (PInt (Z.of_nat (length (images ds)))) /\
    dict_get (metadata ds) "total_pages"
    = Some (PInt (Z.of_nat match doc_pages doc with
                           | Some pages => length pages
                           | None => 1%nat
                           end)).
Proof.
  intros H.
  apply process_document_returns in H.
  destruct H as (s1 & c & doc & s2 & d0 & s3 & t0 & t1 & _ & Hconv & _ & Hdoc
                 & _ & _ & Hextract & _ & ->).
  apply extract_returns in Hextract.
  destruct Hextract as (tabs & s4 & chunks & _ & _ & ->).
  exists c, doc. rewrite <- Hconv. split; [exact Hdoc|].
  repeat split; reflexivity.
Qed.

Lemma C8_metadata_counts_witness :
  let E := engine always_builds pageless_document in
  let s := constructed E default_config small_world in
  exists ds c doc,
    convert E (length (conversions (env s))) c "in.pdf" = inr doc /\
    dict_get (metadata ds) "sections_count"
    = Some (PInt (Z.of_nat (length (sections ds)))) /\
    dict_get (metadata ds) "tables_count"
    = Some (PInt (Z.of_nat (length (tables ds)))) /\
    dict_get (metadata ds) "images_count"
    = Some (PInt (Z.of_nat (length (images ds)))) /\
    dict_get (metadata ds) "total_pages"
    = Some (PInt (Z.of_nat match doc_pages doc with
                           | Some pages => length pages
                           | None => 1%nat
                           end)).
Proof.
  intros E s. eexists.
  eapply (@C8_metadata_counts E "in.pdf" "out" false "eng" s).
  vm_compute. reflexivity.
Defined.

(** C8, as stated, fails: for a document whose page collection is empty the
    call returns and [total_pages] is 0. *)
Lemma C8_empty_pages_total_zero :
  let E := engine always_builds pageless_document in
  let s := constructed E default_config small_world in
  exists ds,
    fst (process_document E "in.pdf" "out" false "eng" s) = inr ds /\
    dict_get (metadata ds) "total_pages" = Some (PInt 0) /\
    ~ (exists n, dict_get (metadata ds) "total_pages" = Some (PInt n) /\ n >= 1).
Proof.
  intros E s. eexists. split; [vm_compute; reflexivity|].
  split; [reflexivity|].
  intros (n & Hn & Hge). vm_compute in Hn. injection Hn as <-. lia.
Qed.

(** C9.  When a call with [use_ocr] = False returns, the statistics record
    [ocr_used] = False and [ocr_languages] = None, whatever languages were
    passed. *)
Theorem C9_no_ocr_stats
  (E : extern) (file_path output_dir languages : string) (s s' : state)
  (ds : DocumentStructure) :
  process_document E file_path output_dir false languages s = (inr ds, s') ->
  dict_get (processing_stats ds) "ocr_used" = Some (PBool false) /\
  dict_get (processing_stats ds) "ocr_languages" = Some PNone.
Proof.
  intros H.
  apply process_document_returns in H.
  destruct H as (s1 & c & doc & s2 & d0 & s3 & t0 & t1 & _ & _ & _ & _ & _ & _
                 & _ & _ & ->).
  split; reflexivity.
Qed.

Lemma C9_no_ocr_stats_witness :
  let E := engine always_builds bare_document in
  let s := constructed E default_config small_world in
  exists ds s',
    process_document E "in.pdf" "out" false "rus+chi_sim" s = (inr ds, s') /\
    dict_get (processing_stats ds) "ocr_used" = Some (PBool false) /\
    dict_get (processing_stats ds) "ocr_languages" = Some PNone.
Proof.
  intros E s. eexists _, _. split.
  - vm_compute. reflexivity.
  - eapply (@C9_no_ocr_stats E "in.pdf" "out" "rus+chi_sim" s).
    vm_compute. reflexivity.
Defined.

(** ** Side files *)

Lemma append_inj_l (a x y : string) : a ++ x = a ++ y -> x = y.
Proof. induction a; simpl; intros H; [exact H | injection H; auto]. Qed.

Lemma length_append (x y : string) :
  String.length (x ++ y) = (String.length x + String.length y)%nat.
Proof. induction x; simpl; [reflexivity | now rewrite IHx]. Qed.

Lemma append_inj_r (a x y : string) : x ++ a = y ++ a -> x = y.
Proof.
  revert y. induction x as [|c x IH]; intros [|d y] H; simpl in H.
  - reflexivity.
  - apply (f_equal String.length) in H. simpl in H. rewrite length_append in H. lia.
  - apply (f_equal String.length) in H. simpl in H. rewrite length_append in H. lia.
  - injection H as -> H. f_equal. now apply IH.
Qed.

Lemma decimal_inj (i k : nat) : decimal i = decimal k -> i = k.
Proof.
  unfold decimal. intros H.
  apply DecimalNat.Unsigned.to_uint_inj.
  apply (f_equal NilEmpty.uint_of_string) in H.
  rewrite !NilEmpty.usu in H. now injection H.
Qed.

Lemma table_file_inj (dir : string) (i k : nat) :
  table_file dir i = table_file dir k -> i = k.
Proof.
  unfold table_file, path_join. intros H.
  apply append_inj_l in H. apply (append_inj_l "/") in H.
  apply (append_inj_l "table_") in H. apply append_inj_r in H.
  now apply decimal_inj.
Qed.

Lemma fs_lookup_put (fs : filesystem) (p q c : string) :
  fs_lookup (fs_put fs p c) q
  = if String.eqb p q then Some (File c) else fs_lookup fs q.
Proof.
  induction fs as [|[r n] fs IH]; simpl.
  - reflexivity.
  - destruct (String.eqb r p) eqn:Hrp; simpl.
    + apply String.eqb_eq in Hrp; subst r. now destruct (String.eqb p q).
    + rewrite IH. destruct (String.eqb r q) eqn:Hrq; [|reflexivity].
      apply String.eqb_eq in Hrq; subst r. now rewrite String.eqb_sym, Hrp.
Qed.

Lemma dict_get_set (d : pydict) (k : string) (v : pyval) :
  dict_get (dict_set d k v) k = Some v.
Proof.
  induction d as [|[k' v'] d IH]; simpl.
  - now rewrite String.eqb_refl.
  - destruct (String.eqb k' k) eqn:Hk; simpl; now rewrite Hk.
Qed.



Lemma extract_table_returns (E : extern) (dir : string) (i : nat)
  (t : table_item) (s s' : state) (entry : pydict) :
  extract_table E dir i t s = (inr entry, s') ->
  entry = dict_set (table_record i t) "file_path" (PStr (table_file dir i)) /\
  (forall q,
      fs_lookup (fs (env s')) q
      = if String.eqb (table_file dir i) q
        then Some (File (json_text E (as_pyval (table_record i t))))
        else fs_lookup (fs (env s)) q).
Proof.
  unfold extract_table, json_dump. intros H.
  inv_bind H. unfold fs_call, fs_write in Hstep.
  destruct (fs_writable _ _); [|destruct (fs_lookup _ _) as [[|]|]; discriminate].
  injection Hstep as <- <-.
  inv_bind H. inv_bind Hstep. unfold fs_call in Hstep0. injection Hstep0 as <- <-.
  destruct (json_encode_ok _ _ _); [|discriminate].
  inv_prim Hstep. inv_prim H. split; [reflexivity|].
  intros q. simpl. rewrite !fs_lookup_put.
  now destruct (String.eqb _ q).
Qed.

Lemma tables_loop_returns (E : extern) (dir : string) (ts : list table_item) :
  forall (i : nat) (s s' : state) (entries : list pydict),
  tables_loop E dir i ts s = (inr entries, s') ->
  length entries = length ts /\
  (forall j t, nth_error ts j = Some t ->
     nth_error entries j
     = Some (dict_set (table_record (i + j) t) "file_path"
               (PStr (table_file dir (i + j)))) /\
     fs_lookup (fs (env s')) (table_file dir (i + j))
     = Some (File (json_text E (as_pyval (table_record (i + j) t))))) /\
  (forall q, (forall k, (i <= k)%nat -> q <> table_file dir k) ->
     fs_lookup (fs (env s')) q = fs_lookup (fs (env s)) q).
Proof.
  induction ts as [|t ts IH]; intros i s s' entries H; simpl in H.
  - inv_prim H. repeat split; auto; destruct j; discriminate.
  - inv_bind H. apply extract_table_returns in Hstep. destruct Hstep as [-> Hfs].
    inv_bind H. apply IH in Hstep. destruct Hstep as (Hlen & Hnth & Hframe).
    inv_prim H. split; [simpl; now rewrite Hlen|]. split.
    + intros [|j] t' Ht'; simpl in Ht'.
      * injection Ht' as <-. rewrite Nat.add_0_r. split; [reflexivity|].
        rewrite Hframe, Hfs, String.eqb_refl; [reflexivity|].
        intros k Hk Heq. apply table_file_inj in Heq. lia.
      * rewrite Nat.add_succ_r. now apply Hnth.
    + intros q Hq. rewrite Hframe, Hfs.
      * destruct (String.eqb _ q) eqn:Heq; [|reflexivity].
        apply String.eqb_eq in Heq. exfalso. apply (Hq i); [lia | now symmetry].
      * intros k Hk. apply Hq. lia.
Qed.




(** ** Markdown export *)

Lemma append_assoc (x y z : string) : (x ++ y) ++ z = x ++ y ++ z.
Proof. induction x; simpl; [reflexivity | now rewrite IHx]. Qed.






(** ** Cleanup *)

Lemma fs_lookup_remove (fs : filesystem) (p q : string) :
  fs_lookup (fs_remove fs p) q
  = if String.eqb p q then None else fs_lookup fs q.
Proof.
  induction fs as [|[r n] fs IH]; simpl.
  - now destruct (String.eqb p q).
  - destruct (String.eqb r p) eqn:Hrp; simpl.
    + rewrite IH. apply String.eqb_eq in Hrp; subst r.
      now destruct (String.eqb p q).
    + rewrite IH. destruct (String.eqb r q) eqn:Hrq; [|reflexivity].
      apply String.eqb_eq in Hrq; subst r. now rewrite String.eqb_sym, Hrp.
Qed.









(** ** What a call may change *)

Section Preservation.
Variable R : state -> state -> Prop.
Hypothesis R_refl : forall s, R s s.
Hypothesis R_trans : forall s1 s2 s3, R s1 s2 -> R s2 s3 -> R s1 s3.

Lemma preserves_ret {A} (a : A) : preserves R (ret a).
Proof. intros s r s' H. injection H as _ <-. apply R_refl. Qed.

Lemma preserves_raise {A} (e : exn) : preserves R (@raise A e).
Proof. intros s r s' H. injection H as _ <-. apply R_refl. Qed.

Lemma preserves_get_self : preserves R get_self.
Proof. intros s r s' H. injection H as _ <-. apply R_refl. Qed.

Lemma preserves_get_env : preserves R get_env.
Proof. intros s r s' H. injection H as _ <-. apply R_refl. Qed.

Lemma preserves_now : preserves R now.
Proof. intros s r s' H. injection H as _ <-. apply R_refl. Qed.

Lemma preserves_bind {A B} (m : M A) (k : A -> M B) :
  preserves R m -> (forall a, preserves R (k a)) -> preserves R (bind m k).
Proof.
  intros Hm Hk s r s' H. unfold bind in H.
  destruct (m s) as [[e|a] s1] eqn:Hms.
  - injection H as _ <-. eapply Hm; eassumption.
  - eapply R_trans; [eapply Hm; eassumption | eapply Hk; eassumption].
Qed.

Lemma preserves_try_except {A} (m : M A) (h : exn -> M A) :
  preserves R m -> (forall e, preserves R (h e)) -> preserves R (try_except m h).
Proof.
  intros Hm Hh s r s' H. unfold try_except in H.
  destruct (m s) as [[e|a] s1] eqn:Hms.
  - eapply R_trans; [eapply Hm; eassumption | eapply Hh; eassumption].
  - injection H as _ <-. eapply Hm; eassumption.
Qed.
End Preservation.

Ltac evolves_tac :=
  unfold evolves; simpl;
  repeat match goal with |- _ /\ _ => split end;
  auto;
  try (exists []; now rewrite app_nil_r);
  try (eexists; reflexivity).

Lemma evolves_refl (touch : string -> Prop) (s : state) : evolves touch s s.
Proof. evolves_tac. Qed.

Lemma evolves_trans (touch : string -> Prop) (s1 s2 s3 : state) :
  evolves touch s1 s2 -> evolves touch s2 s3 -> evolves touch s1 s3.
Proof.
  intros (Hc & Hk & Hf & Hfs & [l1 H1] & [l2 H2] & [l3 H3])
         (Hc' & Hk' & Hf' & Hfs' & [l1' H1'] & [l2' H2'] & [l3' H3']).
  unfold evolves. repeat match goal with |- _ /\ _ => split end.
  - congruence.
  - congruence.
  - auto.
  - intros q Hq. rewrite Hfs', Hfs; auto.
  - exists (l1 ++ l1')%list. now rewrite H1', H1, app_assoc.
  - exists (l2 ++ l2')%list. now rewrite H2', H2, app_assoc.
  - exists (l3 ++ l3')%list. now rewrite H3', H3, app_assoc.
Qed.

Section Evolution.
Variable E : extern.
Variable touch : string -> Prop.

Lemma logger_evolves (lvl : log_level) (msg : string) (e : option exn) :
  preserves (evolves touch) (logger lvl msg e).
Proof.
  intros s r s' H. injection H as _ <-.
  evolves_tac.
Qed.

Lemma construct_converter_evolves (opts : PdfPipelineOptions) :
  preserves (evolves touch) (construct_converter E opts).
Proof.
  intros s r s' H. unfold construct_converter in H.
  destruct (new_converter E _ _); injection H as _ <-;
    evolves_tac.
Qed.

Lemma call_convert_evolves (c : DocumentConverter) (p : string) :
  preserves (evolves touch) (call_convert E c p).
Proof.
  intros s r s' H. unfold call_convert in H.
  destruct (convert E _ _ _); injection H as _ <-;
    evolves_tac.
Qed.

Lemma set_converter_evolves (c : DocumentConverter) :
  preserves (evolves touch) (set_converter c).
Proof.
  intros s r s' H. injection H as _ <-.
  evolves_tac.
Qed.

Lemma set_ocr_initialized_true_evolves :
  preserves (evolves touch) (set_ocr_initialized true).
Proof.
  intros s r s' H. injection H as _ <-.
  evolves_tac.
Qed.

(** A file-system call that changes touched paths only. *)
Lemma fs_call_evolves (f : filesystem -> exn + filesystem) :
  (forall fs fs' q, f fs = inr fs' -> ~ touch q ->
     fs_lookup fs' q = fs_lookup fs q) ->
  preserves (evolves touch) (fs_call f).
Proof.
  intros Hf s r s' H. unfold fs_call in H.
  destruct (f (fs (env s))) as [e|fs'] eqn:Hfs; injection H as _ <-.
  - apply evolves_refl.
  - evolves_tac; intros q Hq; eauto.
Qed.
End Evolution.

Ltac preserve_step :=
  match goal with
  | |- preserves _ (bind _ _) =>
      apply (preserves_bind (@evolves_trans _)); [|intros ?]
  | |- preserves _ (try_except _ _) =>
      apply (preserves_try_except (@evolves_trans _)); [|intros ?]
  | |- preserves _ (ret _) => apply preserves_ret, evolves_refl
  | |- preserves _ (raise _) => apply preserves_raise, evolves_refl
  | |- preserves _ get_self => apply preserves_get_self, evolves_refl
  | |- preserves _ get_env => apply preserves_get_env, evolves_refl
  | |- preserves _ now => apply preserves_now, evolves_refl
  | |- preserves _ (logger _ _ _) => apply logger_evolves
  | |- preserves _ (construct_converter _ _) => apply construct_converter_evolves
  | |- preserves _ (call_convert _ _ _) => apply call_convert_evolves
  | |- preserves _ (set_converter _) => apply set_converter_evolves
  | |- preserves _ (set_ocr_initialized true) =>
      apply set_ocr_initialized_true_evolves
  | |- preserves _ (let _ := _ in _) => cbv zeta
  | |- preserves _ (if ?b then _ else _) => destruct b
  | |- preserves _ (match ?x with _ => _ end) => destruct x
  end.

Section ProcessEvolves.
Variable E : extern.
Variable touch : string -> Prop.

Lemma initialize_base_evolves :
  preserves (evolves touch) (_initialize_base_converter E).
Proof. unfold _initialize_base_converter. repeat preserve_step. Qed.

Lemma initialize_ocr_evolves (languages : string) :
  preserves (evolves touch) (_initialize_ocr_converter E languages).
Proof.
  unfold _initialize_ocr_converter.
  repeat first [apply initialize_base_evolves | preserve_step].
Qed.

Lemma count_chunks_evolves (doc : DoclingDocument) (md : string) :
  preserves (evolves touch) (count_chunks E doc md).
Proof. unfold count_chunks. repeat preserve_step. Qed.
End ProcessEvolves.

Lemma fs_write_frame (fs fs' : filesystem) (p c q : string) :
  fs_write fs p c = inr fs' -> q <> p -> fs_lookup fs' q = fs_lookup fs q.
Proof.
  unfold fs_write. destruct (fs_writable fs p).
  - intros H Hq. injection H as <-. rewrite fs_lookup_put.
    destruct (String.eqb p q) eqn:Heq; [|reflexivity].
    apply String.eqb_eq in Heq. congruence.
  - destruct (fs_lookup fs p) as [[|]|]; discriminate.
Qed.

Section TablesEvolve.
Variable E : extern.
Variable output_dir : string.

Lemma extract_table_evolves (i : nat) (t : table_item) :
  preserves (evolves (side_file output_dir)) (extract_table E output_dir i t).
Proof.
  unfold extract_table, json_dump.
  repeat first
    [ apply fs_call_evolves;
      intros fs fs' q Hf Hq;
      assert (q <> table_file output_dir i)
        by (intros ->; apply Hq; now exists i)
    | preserve_step ].
  - eapply fs_write_frame; eassumption.
  - injection Hf as <-. rewrite fs_lookup_put.
    destruct (String.eqb _ q) eqn:Heq; [|reflexivity].
    apply String.eqb_eq in Heq. congruence.
Qed.

Lemma tables_loop_evolves (ts : list table_item) :
  forall i, preserves (evolves (side_file output_dir)) (tables_loop E output_dir i ts).
Proof.
  induction ts as [|t ts IH]; intros i; simpl.
  - preserve_step.
  - repeat first [apply extract_table_evolves | apply IH | preserve_step].
Qed.

Lemma extract_document_structure_evolves (doc : DoclingDocument) (p : string) :
  preserves (evolves (side_file output_dir)) (_extract_document_structure E doc p output_dir).
Proof.
  unfold _extract_document_structure.
  repeat first [apply tables_loop_evolves | apply count_chunks_evolves
               | preserve_step].
Qed.

Lemma process_document_evolves (p : string) (use_ocr : bool) (languages : string) :
  preserves (evolves (side_file output_dir)) (process_document E p output_dir use_ocr languages).
Proof.
  unfold process_document.
  repeat first [apply extract_document_structure_evolves
               | apply initialize_ocr_evolves | apply initialize_base_evolves
               | preserve_step].
Qed.
End TablesEvolve.

(** *** Calls that leave processor and engine alone *)

Lemma quiet_refl (s : state) : quiet s s.
Proof. now repeat split. Qed.

Lemma quiet_trans (s1 s2 s3 : state) : quiet s1 s2 -> quiet s2 s3 -> quiet s1 s3.
Proof. intros (? & ? & ?) (? & ? & ?). repeat split; congruence. Qed.

Lemma logger_quiet (lvl : log_level) (msg : string) (e : option exn) :
  preserves quiet (logger lvl msg e).
Proof. intros s r s' H. injection H as _ <-. now repeat split. Qed.

Lemma fs_call_quiet (f : filesystem -> exn + filesystem) :
  preserves quiet (fs_call f).
Proof.
  intros s r s' H. unfold fs_call in H.
  destruct (f (fs (env s))); injection H as _ <-; now repeat split.
Qed.

Ltac quiet_step :=
  match goal with
  | |- preserves _ (bind _ _) => apply (preserves_bind quiet_trans); [|intros ?]
  | |- preserves _ (try_except _ _) =>
      apply (preserves_try_except quiet_trans); [|intros ?]
  | |- preserves _ (ret _) => apply preserves_ret, quiet_refl
  | |- preserves _ (raise _) => apply preserves_raise, quiet_refl
  | |- preserves _ get_self => apply preserves_get_self, quiet_refl
  | |- preserves _ get_env => apply preserves_get_env, quiet_refl
  | |- preserves _ now => apply preserves_now, quiet_refl
  | |- preserves _ (logger _ _ _) => apply logger_quiet
  | |- preserves _ (fs_call _) => apply fs_call_quiet
  | |- preserves _ (let _ := _ in _) => cbv zeta
  | |- preserves _ (if ?b then _ else _) => destruct b
  | |- preserves _ (match ?x with _ => _ end) => destruct x
  end.

Lemma tables_loop_quiet (E : extern) (dir : string) (ts : list table_item) :
  forall i, preserves quiet (tables_loop E dir i ts).
Proof.
  induction ts as [|t ts IH]; intros i; simpl.
  - quiet_step.
  - unfold extract_table, json_dump. repeat first [apply IH | quiet_step].
Qed.

Lemma extract_document_structure_quiet
  (E : extern) (doc : DoclingDocument) (p dir : string) :
  preserves quiet (_extract_document_structure E doc p dir).
Proof.
  unfold _extract_document_structure, count_chunks.
  repeat first [apply tables_loop_quiet | quiet_step].
Qed.

Lemma export_to_markdown_quiet (E : extern) (d : DocumentStructure) (p : string) :
  preserves quiet (export_to_markdown E d p).
Proof. unfold export_to_markdown. repeat quiet_step. Qed.

Lemma cleanup_loop_quiet (keep : bool) (ps : list string) :
  preserves quiet (cleanup_loop keep ps).
Proof.
  induction ps as [|p ps IH]; simpl.
  - quiet_step.
  - repeat first [apply IH | quiet_step].
Qed.

Lemma cleanup_temp_files_quiet (dir : string) (keep : bool) :
  preserves quiet (cleanup_temp_files dir keep).
Proof.
  unfold cleanup_temp_files. repeat first [apply cleanup_loop_quiet | quiet_step].
Qed.

Lemma after_spec {A} (m : M A) (s : state) : m s = (fst (m s), after m s).
Proof. unfold after. now destruct (m s). Qed.

(** ** More on [process_document] *)

(** A missing input path makes [process_document] raise
    [FileNotFoundError]; the engine has not been asked for anything, and
    processor and files are as before. *)
Theorem process_document_missing_file
  (E : extern) (s : state) (file_path output_dir : string) (use_ocr : bool)
  (languages : string) :
  fs_exists (fs (env s)) file_path = false ->
  exists s',
    process_document E file_path output_dir use_ocr languages s
    = (inl (FileNotFoundError file_path), s') /\
    quiet s s' /\
    fs (env s') = fs (env s).
Proof.
  intros Hex.
  unfold process_document, bind, try_except, now, logger, get_env, get_self,
    ret, raise; simpl.
  rewrite Hex; simpl.
  eexists; repeat split.
Qed.

Lemma process_document_missing_file_witness :
  let E := engine always_builds bare_document in
  let s := constructed E default_config small_world in
  exists s',
    process_document E "absent.pdf" "out" false "eng" s
    = (inl (FileNotFoundError "absent.pdf"), s') /\
    quiet s s' /\
    fs (env s') = fs (env s).
Proof.
  intros E s.
  apply (@process_document_missing_file E s "absent.pdf" "out" false "eng").
  vm_compute. reflexivity.
Defined.

Lemma bind_now {A} (k : Z -> M A) (s : state) :
  bind now k s = k (clock (env s)) s.
Proof. reflexivity. Qed.

Lemma try_except_logged {A} (m : M A) (m1 m2 : string) (s s' : state) (e : exn) :
  try_except m
    (fun e => logger ERROR m1 (Some e) ;; logger ERROR m2 (Some e) ;; raise e)
    s = (inl e, s') ->
  exists s1,
    m s = (inl e, s1) /\
    self s' = self s1 /\
    log (env s')
    = (log (env s1)
         ++ [{| level := ERROR; message := m1; cause := Some e |};
             {| level := ERROR; message := m2; cause := Some e |}])%list.
Proof.
  unfold try_except. destruct (m s) as [[e1|a] s1]; [|discriminate].
  unfold bind, logger, raise; simpl. intros H. injection H as <- <-.
  exists s1. repeat split. simpl. now rewrite <- app_assoc.
Qed.

(** Whenever [process_document] raises, the last two log records are
    errors that carry the very exception the caller receives. *)
Theorem process_document_failure_is_logged
  (E : extern) (s s' : state) (file_path output_dir : string) (use_ocr : bool)
  (languages : string) (e : exn) :
  process_document E file_path output_dir use_ocr languages s = (inl e, s') ->
  exists earlier,
    log (env s')
    = (earlier
         ++ [{| level := ERROR; message := "Error processing document";
                cause := Some e |};
             {| level := ERROR; message := "traceback"; cause := Some e |}])%list.
Proof.
  unfold process_document. rewrite bind_now. intros H.
  apply try_except_logged in H. destruct H as (s1 & _ & _ & Hlog).
  eexists. exact Hlog.
Qed.

Lemma process_document_failure_is_logged_witness :
  let E := engine always_builds tuple_keyed_document in
  let s := constructed E default_config small_world in
  exists s' earlier,
    process_document E "in.pdf" "out" false "eng" s
    = (inl (TypeError "Object is not JSON serializable"), s') /\
    log (env s')
    = (earlier
         ++ [{| level := ERROR; message := "Error processing document";
                cause := Some (TypeError "Object is not JSON serializable") |};
             {| level := ERROR; message := "traceback";
                cause := Some (TypeError "Object is not JSON serializable") |}])%list.
Proof.
  intros E s.
  assert (Hrun : exists s',
             process_document E "in.pdf" "out" false "eng" s
             = (inl (TypeError "Object is not JSON serializable"), s'))
    by (eexists; vm_compute; reflexivity).
  destruct Hrun as [s' Hrun].
  destruct (process_document_failure_is_logged _ _ _ _ _ _ Hrun) as [earlier Hlog].
  exists s', earlier. split; assumption.
Defined.

(** What is left of a call once the handle [c] is in place in [s1]: the
    conversion is requested once, with [c], and nothing else touches the
    processor or the engine. *)
Lemma convert_and_extract
  (E : extern) (s1 : state) (c : DocumentConverter)
  (file_path output_dir : string) (k : DocumentStructure -> M DocumentStructure)
  (r : exn + DocumentStructure) (s' : state) :
  converter (self s1) = Some c ->
  (forall d, preserves quiet (k d)) ->
  (me <- get_self ;;
   docling_document <-
     match converter me with
     | Some c => call_convert E c file_path
     | None => raise (AttributeError "'NoneType' object has no attribute 'convert'")
     end ;;
   document_structure <-
     _extract_document_structure E docling_document file_path output_dir ;;
   k document_structure) s1 = (r, s') ->
  self s' = self s1 /\
  constructions (env s') = constructions (env s1) /\
  conversions (env s') = (conversions (env s1) ++ [(c, file_path)])%list.
Proof.
  intros Hc Hk. unfold bind at 1. unfold get_self at 1. rewrite Hc.
  unfold bind at 1. unfold call_convert.
  destruct (convert E _ c file_path) as [e|doc].
  - intros H. injection H as _ <-. now repeat split.
  - intros H.
    assert (Hq : preserves quiet
              (document_structure <-
                 _extract_document_structure E doc file_path output_dir ;;
               k document_structure)).
    { apply (preserves_bind quiet_trans);
        [apply extract_document_structure_quiet | exact Hk]. }
    apply Hq in H. destruct H as (Hself & Hctor & Hconv). simpl in *.
    now repeat split.
Qed.

Ltac open_call :=
  unfold process_document;
  rewrite bind_now;
  unfold try_except;
  match goal with
  | |- context [(logger INFO "Starting document processing" None ;; ?rest) ?s] =>
      destruct ((logger INFO "Starting document processing" None ;; rest) s)
        as [[e|ds] s'] eqn:Hrun
  end.

Lemma bind_logger {A} (lvl : log_level) (msg : string) (e : option exn)
  (k : unit -> M A) (s : state) :
  bind (logger lvl msg e) k s = k tt (after (logger lvl msg e) s).
Proof. reflexivity. Qed.

Lemma bind_get_env {A} (k : world -> M A) (s : state) :
  bind get_env k s = k (env s) s.
Proof. reflexivity. Qed.

Lemma bind_get_self {A} (k : DoclingProcessor -> M A) (s : state) :
  bind get_self k s = k (self s) s.
Proof. reflexivity. Qed.

Lemma bind_ret {A B} (a : A) (k : A -> M B) (s : state) :
  bind (ret a) k s = k a s.
Proof. reflexivity. Qed.

Lemma bind_raise {A B} (e : exn) (k : A -> M B) (s : state) :
  bind (@raise A e) k s = (inl e, s).
Proof. reflexivity. Qed.

Lemma bind_assoc {A B C} (m : M A) (f : A -> M B) (g : B -> M C) (s : state) :
  bind (bind m f) g s = bind m (fun a => bind (f a) g) s.
Proof. unfold bind. now destruct (m s) as [[e|a] s1]. Qed.

Ltac run_prelude Hrun Hex Hsize :=
  rewrite !bind_logger, bind_get_env in Hrun;
  unfold after in Hrun; simpl in Hrun;
  rewrite Hex, bind_ret, bind_get_self in Hrun; simpl in Hrun;
  rewrite (size_check_passes Hsize), bind_ret in Hrun.

(** When [use_ocr] equals the processor's [ocr_initialized] flag, a call on
    a valid file builds nothing: the processor object is unchanged, and the
    handle it holds is handed the single conversion of the call, whether
    that conversion and the extraction succeed or not. *)
Theorem process_document_reuses_matching_handle
  (E : extern) (s : state) (file_path output_dir languages : string)
  (c : DocumentConverter) :
  let call := process_document E file_path output_dir
                (ocr_initialized (self s)) languages in
  fs_exists (fs (env s)) file_path = true ->
  fs_getsize (fs (env s)) file_path
  <= max_file_size_mb (config (self s)) * 1024 * 1024 ->
  converter (self s) = Some c ->
  self (after call s) = self s /\
  constructions (env (after call s)) = constructions (env s) /\
  conversions (env (after call s))
  = (conversions (env s) ++ [(c, file_path)])%list.
Proof.
  intros call Hex Hsize Hc. subst call. unfold after.
  open_call.
  all: run_prelude Hrun Hex Hsize.
  all: destruct (ocr_initialized (self s)); simpl in Hrun.
  all: rewrite bind_ret, bind_logger in Hrun.
  all: eapply convert_and_extract in Hrun; [|exact Hc|intros d; repeat quiet_step].
  all: destruct Hrun as (Hself & Hctor & Hconv).
  all: unfold bind, logger, raise; simpl.
  all: unfold after in *; simpl in *.
  all: now repeat split.
Qed.

Lemma process_document_reuses_matching_handle_witness :
  let E := engine always_builds bare_document in
  let s := constructed E default_config small_world in
  let call := process_document E "in.pdf" "out" false "eng" in
  self (after call s) = self s /\
  constructions (env (after call s)) = constructions (env s) /\
  conversions (env (after call s))
  = (conversions (env s)
       ++ [({| serial := 0; pipeline_options := base_options default_config |},
            "in.pdf")])%list.
Proof.
  intros E s call.
  apply (@process_document_reuses_matching_handle E s "in.pdf" "out" "eng");
    vm_compute; solve [reflexivity | discriminate].
Defined.

Lemma initialize_ocr_returns (E : extern) (languages : string) (s : state) :
  new_converter E (length (constructions (env s))) (ocr_options (config (self s)))
  = None ->
  exists s1,
    _initialize_ocr_converter E languages s = (inr tt, s1) /\
    self s1
    = {| config := config (self s);
         converter :=
           Some {| serial := length (constructions (env s));
                   pipeline_options := ocr_options (config (self s)) |};
         chunker := chunker (self s);
         ocr_initialized := true |} /\
    constructions (env s1)
    = (constructions (env s) ++ [ocr_options (config (self s))])%list /\
    conversions (env s1) = conversions (env s).
Proof.
  intros H.
  unfold _initialize_ocr_converter, construct_converter, set_converter,
    set_ocr_initialized, bind, try_except, logger, get_self, ret; simpl.
  unfold ocr_options in H. rewrite H. simpl.
  eexists. repeat split.
Qed.

Lemma initialize_base_returns (E : extern) (s : state) :
  new_converter E (length (constructions (env s))) (base_options (config (self s)))
  = None ->
  exists s1,
    _initialize_base_converter E s = (inr tt, s1) /\
    self s1
    = {| config := config (self s);
         converter :=
           Some {| serial := length (constructions (env s));
                   pipeline_options := base_options (config (self s)) |};
         chunker := chunker (self s);
         ocr_initialized := ocr_initialized (self s) |} /\
    constructions (env s1)
    = (constructions (env s) ++ [base_options (config (self s))])%list /\
    conversions (env s1) = conversions (env s).
Proof.
  intros H.
  unfold _initialize_base_converter, construct_converter, set_converter,
    bind, try_except, logger, get_self, ret; simpl.
  unfold base_options in H. rewrite H. simpl.
  eexists. repeat split.
Qed.

(** The first OCR request on a valid file: when the constructor returns,
    the OCR handle it built is the handle in effect, [ocr_initialized] is
    set, and the single conversion of the call is handed that handle. *)
Theorem process_document_first_ocr_request
  (E : extern) (s : state) (file_path output_dir languages : string) :
  let cfg := config (self s) in
  let n := length (constructions (env s)) in
  let c := {| serial := n; pipeline_options := ocr_options cfg |} in
  let call := process_document E file_path output_dir true languages in
  fs_exists (fs (env s)) file_path = true ->
  fs_getsize (fs (env s)) file_path <= max_file_size_mb cfg * 1024 * 1024 ->
  ocr_initialized (self s) = false ->
  new_converter E n (ocr_options cfg) = None ->
  converter (self (after call s)) = Some c /\
  ocr_initialized (self (after call s)) = true /\
  constructions (env (after call s))
  = (constructions (env s) ++ [ocr_options cfg])%list /\
  conversions (env (after call s)) = (conversions (env s) ++ [(c, file_path)])%list.
Proof.
  intros cfg n c call; subst cfg n c call; intros Hex Hsize Hflag Hctor.
  unfold after. open_call.
  all: run_prelude Hrun Hex Hsize.
  all: rewrite Hflag in Hrun; simpl in Hrun.
  all: rewrite bind_assoc, bind_logger in Hrun.
  all: match type of Hrun with
       | bind (_initialize_ocr_converter ?E0 ?l) _ ?st = _ =>
           destruct (@initialize_ocr_returns E0 l st Hctor)
             as (s1 & Hinit & Hself1 & Hctor1 & Hconv1)
       end.
  all: unfold bind at 1 in Hrun; rewrite Hinit in Hrun.
  all: rewrite bind_logger in Hrun.
  all: eapply convert_and_extract in Hrun;
    [|unfold after; simpl; rewrite Hself1; reflexivity
     |intros d; repeat quiet_step].
  all: destruct Hrun as (Hself & Hctor' & Hconv).
  all: unfold bind, logger, raise; simpl.
  all: unfold after in *; simpl in *.
  all: rewrite ?Hself, ?Hctor', ?Hconv, ?Hself1, ?Hctor1, ?Hconv1; simpl.
  all: now repeat split.
Qed.

Lemma process_document_first_ocr_request_witness :
  let E := engine always_builds bare_document in
  let s := constructed E default_config small_world in
  let c := {| serial := 1; pipeline_options := ocr_options default_config |} in
  let call := process_document E "in.pdf" "out" true "eng" in
  converter (self (after call s)) = Some c /\
  ocr_initialized (self (after call s)) = true /\
  constructions (env (after call s))
  = (constructions (env s) ++ [ocr_options default_config])%list /\
  conversions (env (after call s)) = (conversions (env s) ++ [(c, "in.pdf")])%list.
Proof.
  intros E s c call.
  apply (@process_document_first_ocr_request E s "in.pdf" "out" "eng");
    vm_compute; solve [reflexivity | discriminate].
Defined.

(** A request without OCR on a processor whose [ocr_initialized] flag is
    set: the base handle is built anew and handed the conversion, and the
    flag is still set afterwards, so the next request without OCR builds
    once more and the next request with OCR builds nothing. *)
Theorem process_document_switch_back_keeps_flag
  (E : extern) (s : state) (file_path output_dir languages : string) :
  let cfg := config (self s) in
  let n := length (constructions (env s)) in
  let c := {| serial := n; pipeline_options := base_options cfg |} in
  let call := process_document E file_path output_dir false languages in
  fs_exists (fs (env s)) file_path = true ->
  fs_getsize (fs (env s)) file_path <= max_file_size_mb cfg * 1024 * 1024 ->
  ocr_initialized (self s) = true ->
  new_converter E n (base_options cfg) = None ->
  converter (self (after call s)) = Some c /\
  ocr_initialized (self (after call s)) = true /\
  constructions (env (after call s))
  = (constructions (env s) ++ [base_options cfg])%list /\
  conversions (env (after call s)) = (conversions (env s) ++ [(c, file_path)])%list.
Proof.
  intros cfg n c call; subst cfg n c call; intros Hex Hsize Hflag Hctor.
  unfold after. open_call.
  all: run_prelude Hrun Hex Hsize.
  all: rewrite Hflag in Hrun; simpl in Hrun.
  all: rewrite bind_assoc, bind_logger in Hrun.
  all: match type of Hrun with
       | bind (_initialize_base_converter ?E0) _ ?st = _ =>
           destruct (@initialize_base_returns E0 st Hctor)
             as (s1 & Hinit & Hself1 & Hctor1 & Hconv1)
       end.
  all: unfold bind at 1 in Hrun; rewrite Hinit in Hrun.
  all: rewrite bind_logger in Hrun.
  all: eapply convert_and_extract in Hrun;
    [|unfold after; simpl; rewrite Hself1; reflexivity
     |intros d; repeat quiet_step].
  all: destruct Hrun as (Hself & Hctor' & Hconv).
  all: unfold bind, logger, raise; simpl.
  all: unfold after in *; simpl in *.
  all: rewrite ?Hself, ?Hctor', ?Hconv, ?Hself1, ?Hctor1, ?Hconv1; simpl.
  all: now repeat split.
Qed.

Lemma process_document_switch_back_keeps_flag_witness :
  let E := engine always_builds bare_document in
  let s := after (process_document E "in.pdf" "out" true "eng")
             (constructed E default_config small_world) in
  let c := {| serial := 2; pipeline_options := base_options default_config |} in
  let call := process_document E "in.pdf" "out" false "eng" in
  converter (self (after call s)) = Some c /\
  ocr_initialized (self (after call s)) = true /\
  constructions (env (after call s))
  = (constructions (env s) ++ [base_options default_config])%list /\
  conversions (env (after call s)) = (conversions (env s) ++ [(c, "in.pdf")])%list.
Proof.
  intros E s c call.
  apply (@process_document_switch_back_keeps_flag E s "in.pdf" "out" "eng");
    vm_compute; solve [reflexivity | discriminate].
Defined.

(** No call changes the configuration or the chunker of the processor, and
    no call clears [ocr_initialized] once it is set. *)
Theorem process_document_keeps_processor_settings
  (E : extern) (s : state) (file_path output_dir : string) (use_ocr : bool)
  (languages : string) :
  let s' := after (process_document E file_path output_dir use_ocr languages) s in
  config (self s') = config (self s) /\
  chunker (self s') = chunker (self s) /\
  (ocr_initialized (self s) = true -> ocr_initialized (self s') = true).
Proof.
  intros s'.
  destruct (@process_document_evolves E output_dir file_path use_ocr languages
              s _ _ (after_spec _ s)) as (Hc & Hk & Hf & _).
  auto.
Qed.



Lemma switch_returns (E : extern) (use_ocr : bool) (languages : string)
  (s s' : state) (me : DoclingProcessor) :
  me = self s ->
  (if use_ocr && negb (ocr_initialized me) then
     logger INFO "Initializing OCR converter..." None ;;
     _initialize_ocr_converter E languages
   else if negb use_ocr && ocr_initialized me then
     logger INFO "Switching back to base converter..." None ;;
     _initialize_base_converter E
   else ret tt) s = (inr tt, s') ->
  ocr_initialized (self s') = use_ocr || ocr_initialized (self s) /\
  chunker (self s') = chunker (self s).
Proof.
  intros ->.
  destruct use_ocr, (ocr_initialized (self s)) eqn:Hflag; simpl.
  - unfold ret. intros H; injection H as <-. now rewrite Hflag.
  - unfold _initialize_ocr_converter, _initialize_base_converter,
      construct_converter, set_converter, set_ocr_initialized,
      bind, try_except, logger, get_self, ret, raise; simpl.
    destruct (new_converter E _ _); simpl.
    + rewrite length_app; simpl.
      destruct (new_converter E _ _); simpl; discriminate.
    + intros H; injection H as <-. simpl. auto.
  - unfold _initialize_base_converter, construct_converter, set_converter,
      bind, try_except, logger, get_self, ret, raise; simpl.
    destruct (new_converter E _ _); simpl; [discriminate|].
    intros H; injection H as <-. simpl. auto.
  - unfold ret. intros H; injection H as <-. now rewrite Hflag.
Qed.

(** A call that returns has passed validation, and its structure is what
    the extraction produced on a processor whose flag is the disjunction of
    the request and the earlier flag. *)
Lemma process_document_returns_validated
  (E : extern) (file_path output_dir : string) (use_ocr : bool)
  (languages : string) (s s' : state) (ds : DocumentStructure) :
  process_document E file_path output_dir use_ocr languages s = (inr ds, s') ->
  fs_exists (fs (env s)) file_path = true /\
  fs_getsize (fs (env s)) file_path
  <= max_file_size_mb (config (self s)) * 1024 * 1024 /\
  exists doc s2 d0 s3 stats,
    ocr_initialized (self s2) = use_ocr || ocr_initialized (self s) /\
    chunker (self s2) = chunker (self s) /\
    _extract_document_structure E doc file_path output_dir s2 = (inr d0, s3) /\
    ds = set_processing_stats d0 stats.
Proof.
  unfold process_document. intros H.
  inv_bind H. inv_prim Hstep.
  apply try_except_reraise_inr in H; [|intros; apply log_twice_and_raise].
  do 3 (inv_bind H; inv_prim Hstep).
  inv_bind H. inv_prim Hstep.
  inv_bind H.
  destruct (fs_exists _ _) eqn:Hex; [inv_prim Hstep | discriminate].
  inv_bind H. inv_prim Hstep.
  inv_bind H.
  destruct (_ >? _) eqn:Hsize; [discriminate | inv_prim Hstep].
  inv_bind H. destruct a. apply switch_returns in Hstep; [|reflexivity].
  simpl in Hstep. destruct Hstep as [Hflag Hchunker].
  inv_bind H. inv_prim Hstep.
  inv_bind H. inv_prim Hstep.
  inv_bind H.
  destruct (converter _) as [c|] eqn:Hc; [|discriminate].
  unfold call_convert in Hstep.
  destruct (convert E _ c file_path) as [e|doc] eqn:Hdoc; [discriminate|].
  injection Hstep as <- <-.
  inv_bind H. rename Hstep into Hextract.
  inv_bind H. inv_prim Hstep.
  inv_bind H. inv_prim Hstep.
  inv_prim H.
  simpl in *.
  split; [reflexivity|]. split.
  { rewrite Z.gtb_ltb in Hsize. now apply Z.ltb_ge. }
  match type of Hextract with
  | _extract_document_structure _ _ _ _ ?st = (inr ?d, ?sf) =>
      eexists doc, st, d, sf, _
  end.
  repeat split; try eassumption.
Qed.

(** On a valid file and with a flag that matches the request, a conversion
    that raises makes [process_document] raise the same error; nothing has
    been built and no file has changed. *)
Theorem process_document_conversion_error_propagates
  (E : extern) (s : state) (file_path output_dir languages : string)
  (c : DocumentConverter) (e : exn) :
  fs_exists (fs (env s)) file_path = true ->
  fs_getsize (fs (env s)) file_path
  <= max_file_size_mb (config (self s)) * 1024 * 1024 ->
  converter (self s) = Some c ->
  convert E (length (conversions (env s))) c file_path = inl e ->
  exists s',
    process_document E file_path output_dir (ocr_initialized (self s)) languages s
    = (inl e, s') /\
    fs (env s') = fs (env s) /\
    self s' = self s /\
    constructions (env s') = constructions (env s).
Proof.
  intros Hex Hsize Hc Hconv.
  unfold process_document, call_convert, bind, try_except, now, logger, get_env,
    get_self, ret, raise; simpl.
  rewrite Hex; simpl.
  rewrite (size_check_passes Hsize); simpl.
  destruct (ocr_initialized (self s)); simpl; rewrite Hc; simpl;
    rewrite Hconv; simpl; eexists; repeat split.
Qed.

Lemma process_document_conversion_error_propagates_witness :
  let E := {| py_str := fun _ => ""; json_text := fun _ => "";
              isoformat := fun _ => ""; new_converter := always_builds;
              convert := fun _ _ _ => inl (EngineError "not a PDF");
              convert_duration := fun _ => 0;
              chunk := fun _ _ => inr 0%nat |} in
  let s := constructed E default_config small_world in
  exists s',
    process_document E "in.pdf" "out" (ocr_initialized (self s)) "eng" s
    = (inl (EngineError "not a PDF"), s') /\
    fs (env s') = fs (env s) /\
    self s' = self s /\
    constructions (env s') = constructions (env s).
Proof.
  intros E s.
  apply (@process_document_conversion_error_propagates E s "in.pdf" "out" "eng"
           {| serial := 0; pipeline_options := base_options default_config |});
    vm_compute; solve [reflexivity | discriminate].
Defined.

(** In the structure a call returns, [has_ocr_content] is true exactly when
    OCR was requested by this call or [ocr_initialized] was set before it:
    it records that OCR was ever switched on, not that this document went
    through OCR. *)
Theorem has_ocr_content_is_sticky
  (E : extern) (file_path output_dir : string) (use_ocr : bool)
  (languages : string) (s s' : state) (ds : DocumentStructure) :
  process_document E file_path output_dir use_ocr languages s = (inr ds, s') ->
  dict_get (metadata ds) "has_ocr_content"
  = Some (PBool (use_ocr || ocr_initialized (self s))).
Proof.
  intros H. apply process_document_returns_validated in H.
  destruct H as (_ & _ & doc & s2 & d0 & s3 & stats & Hflag & _ & Hextract & ->).
  pose proof (@extract_document_structure_quiet _ _ _ _ _ _ _ Hextract) as (Hself & _).
  apply extract_returns in Hextract.
  destruct Hextract as (tabs & s4 & chunks & _ & _ & ->).
  simpl. now rewrite Hself, Hflag.
Qed.

Lemma has_ocr_content_is_sticky_witness :
  let E := engine always_builds bare_document in
  let s := after (process_document E "in.pdf" "out" true "eng")
             (constructed E default_config small_world) in
  exists ds s',
    process_document E "in.pdf" "out" false "eng" s = (inr ds, s') /\
    dict_get (metadata ds) "has_ocr_content"
    = Some (PBool (false || ocr_initialized (self s))).
Proof.
  intros E s. eexists _, _. split.
  - vm_compute. reflexivity.
  - eapply (@has_ocr_content_is_sticky E "in.pdf" "out" false "eng" s).
    vm_compute. reflexivity.
Defined.

Lemma extract_without_chunker
  (E : extern) (doc : DoclingDocument) (file_path output_dir : string)
  (s s' : state) (d0 : DocumentStructure) :
  _extract_document_structure E doc file_path output_dir s = (inr d0, s') ->
  chunker (self s) = None ->
  dict_get (metadata d0) "chunks_count" = Some (PInt 0).
Proof.
  unfold _extract_document_structure. intros H Hnone.
  apply try_except_reraise_inr in H; [|intros; apply log_twice_and_raise].
  inv_bind H. rename Hstep into Htabs.
  assert (Hself : self s0 = self s).
  { destruct (doc_tables doc).
    - apply tables_loop_quiet in Htabs. apply Htabs.
    - inv_prim Htabs. reflexivity. }
  inv_bind H.
  unfold count_chunks, bind, get_self in Hstep.
  rewrite Hself, Hnone in Hstep. inv_prim Hstep.
  inv_bind H. inv_prim Hstep.
  inv_bind H. inv_prim Hstep.
  inv_prim H. reflexivity.
Qed.

(** A processor without a chunker reports [chunks_count] = 0 for every
    document it returns.  [__init__] sets no chunker and no call sets one,
    so this is what a processor reports unless [_initialize_chunker] was
    called on it from outside. *)
Theorem chunks_count_zero_without_chunker
  (E : extern) (file_path output_dir : string) (use_ocr : bool)
  (languages : string) (s s' : state) (ds : DocumentStructure) :
  chunker (self s) = None ->
  process_document E file_path output_dir use_ocr languages s = (inr ds, s') ->
  dict_get (metadata ds) "chunks_count" = Some (PInt 0).
Proof.
  intros Hnone H. apply process_document_returns_validated in H.
  destruct H as (_ & _ & doc & s2 & d0 & s3 & stats & _ & Hchunker & Hextract & ->).
  simpl. eapply extract_without_chunker; [eassumption|]. congruence.
Qed.

Lemma chunks_count_zero_without_chunker_witness :
  let E := engine always_builds illustrated_document in
  let s := constructed E default_config small_world in
  exists ds s',
    process_document E "in.pdf" "out" false "eng" s = (inr ds, s') /\
    dict_get (metadata ds) "chunks_count" = Some (PInt 0).
Proof.
  intros E s. eexists _, _. split.
  - vm_compute. reflexivity.
  - eapply (@chunks_count_zero_without_chunker E "in.pdf" "out" false "eng" s).
    + reflexivity.
    + vm_compute. reflexivity.
Defined.

(** The [metadata] and [processing_stats] of a returned structure are
    JSON-serializable as they are, without any [default] hook, and the
    recorded [file_size_bytes] is the size of the input file, which is
    within the configured ceiling. *)
Theorem returned_metadata_is_json_ready
  (E : extern) (file_path output_dir : string) (use_ocr : bool)
  (languages : string) (s s' : state) (ds : DocumentStructure) :
  process_document E file_path output_dir use_ocr languages s = (inr ds, s') ->
  json_dumps_ok (as_pyval (metadata ds)) = true /\
  json_dumps_ok (as_pyval (processing_stats ds)) = true /\
  dict_get (processing_stats ds) "file_size_bytes"
  = Some (PInt (fs_getsize (fs (env s)) file_path)) /\
  fs_getsize (fs (env s)) file_path
  <= max_file_size_mb (config (self s)) * 1024 * 1024.
Proof.
  intros H.
  pose proof (process_document_returns_validated _ _ _ _ _ _ H) as (_ & Hsize & _).
  apply process_document_returns in H.
  destruct H as (s1 & c & doc & s2 & d0 & s3 & t0 & t1 & _ & _ & _ & _ & _ & _
                 & Hextract & _ & ->).
  apply extract_returns in Hextract.
  destruct Hextract as (tabs & s4 & chunks & _ & _ & ->).
  repeat split; try reflexivity; try exact Hsize.
  now destruct use_ocr.
Qed.

Lemma returned_metadata_is_json_ready_witness :
  let E := engine always_builds illustrated_document in
  let s := constructed E default_config small_world in
  exists ds s',
    process_document E "in.pdf" "out" true "eng" s = (inr ds, s') /\
    json_dumps_ok (as_pyval (metadata ds)) = true /\
    json_dumps_ok (as_pyval (processing_stats ds)) = true /\
    dict_get (processing_stats ds) "file_size_bytes"
    = Some (PInt (fs_getsize (fs (env s)) "in.pdf")) /\
    fs_getsize (fs (env s)) "in.pdf"
    <= max_file_size_mb (config (self s)) * 1024 * 1024.
Proof.
  intros E s. eexists _, _. split.
  - vm_compute. reflexivity.
  - eapply (@returned_metadata_is_json_ready E "in.pdf" "out" true "eng" s).
    vm_compute. reflexivity.
Defined.

(** ** More on the serializer *)

Lemma dict_get_set_other (d : pydict) (k k' : string) (v : pyval) :
  k' <> k -> dict_get (dict_set d k' v) k = dict_get d k.
Proof.
  intros Hne. induction d as [|[k0 v0] d IH]; simpl.
  - destruct (String.eqb k' k) eqn:Heq; [|reflexivity].
    apply String.eqb_eq in Heq. contradiction.
  - destruct (String.eqb k0 k') eqn:Hk0; simpl.
    + apply String.eqb_eq in Hk0; subst k0.
      destruct (String.eqb k' k) eqn:Heq; [|reflexivity].
      apply String.eqb_eq in Heq. contradiction.
    + now rewrite IH.
Qed.

Section ObjectFields.
Variable val : pyval -> pyval.

(** The loop over [obj.__dict__.items()], for any way [val] of rendering a
    value. *)
Let fields (attrs : list (string * pyval)) (init : pydict) : pydict :=
  fold_left
    (fun result kv =>
       if starts_with_underscore (fst kv) then result
       else dict_set result (fst kv) (val (snd kv)))
    attrs init.

Lemma fields_private (attrs : list (string * pyval)) :
  forall init k,
  starts_with_underscore k = true ->
  dict_get (fields attrs init) k = dict_get init k.
Proof.
  induction attrs as [|[k' v'] attrs IH]; intros init k Hk; simpl; [reflexivity|].
  unfold fields in *. simpl. rewrite IH by exact Hk.
  destruct (starts_with_underscore k') eqn:Hk'; [reflexivity|].
  apply dict_get_set_other. congruence.
Qed.

Lemma fields_other (attrs : list (string * pyval)) :
  forall init k,
  ~ In k (map fst attrs) ->
  dict_get (fields attrs init) k = dict_get init k.
Proof.
  induction attrs as [|[k' v'] attrs IH]; intros init k Hk; simpl; [reflexivity|].
  unfold fields in *. simpl in *. rewrite IH by tauto.
  destruct (starts_with_underscore k'); [reflexivity|].
  apply dict_get_set_other. tauto.
Qed.

Lemma fields_public (attrs : list (string * pyval)) :
  forall init k v,
  NoDup (map fst attrs) ->
  In (k, v) attrs ->
  starts_with_underscore k = false ->
  dict_get (fields attrs init) k = Some (val v).
Proof.
  induction attrs as [|[k' v'] attrs IH]; intros init k v Hnd Hin Hk; simpl;
    [contradiction|].
  inversion Hnd as [|? ? Hnotin Hnd']; subst.
  unfold fields in *. simpl in *.
  destruct Hin as [Heq|Hin].
  - injection Heq as -> ->. rewrite Hk.
    rewrite (fields_other attrs _ k Hnotin). apply dict_get_set.
  - now apply IH.
Qed.
End ObjectFields.

Lemma safe_serialize_object_unfold
  (py_str : pyval -> string) (cls : string) (attrs : list (string * pyval)) :
  safe_serialize_tabledata py_str (PObject cls attrs)
  = as_pyval
      (fold_left
         (fun result kv =>
            if starts_with_underscore (fst kv) then result
            else dict_set result (fst kv) (attribute_value py_str (snd kv)))
         attrs [("_type", PStr cls)]).
Proof.
  unfold attribute_value. simpl. f_equal.
  generalize [("_type", PStr cls)] as init.
  induction attrs as [|[k v] attrs IH]; intros init; simpl; [reflexivity|].
  rewrite IH. do 2 f_equal.
  destruct (starts_with_underscore k); [reflexivity|].
  now destruct v.
Qed.

(** For an object, the result is a dictionary in which [_type] is the class
    name, no other key starts with an underscore, and every public
    attribute of the object has an entry; an attribute value that
    [json.dumps] accepts is kept as it is. *)
Theorem safe_serialize_object_fields
  (py_str : pyval -> string) (cls : string) (attrs : list (string * pyval)) :
  NoDup (map fst attrs) ->
  exists d,
    safe_serialize_tabledata py_str (PObject cls attrs) = as_pyval d /\
    dict_get d "_type" = Some (PStr cls) /\
    (forall k, starts_with_underscore k = true -> k <> "_type" ->
       dict_get d k = None) /\
    (forall k v, In (k, v) attrs -> starts_with_underscore k = false ->
       exists v', dict_get d k = Some v' /\
                  (json_dumps_ok v = true -> v' = v)).
Proof.
  intros Hnd. rewrite safe_serialize_object_unfold.
  eexists. split; [reflexivity|].
  set (val := attribute_value py_str).
  split; [|split].
  - rewrite (fields_private val attrs) by reflexivity. reflexivity.
  - intros k Hk Hne. rewrite (fields_private val attrs) by exact Hk.
    cbn [dict_get].
    destruct (String.eqb "_type" k) eqn:Heq; [|reflexivity].
    apply String.eqb_eq in Heq. congruence.
  - intros k v Hin Hk. exists (val v). split.
    + now apply (fields_public val).
    + intros Hok. unfold val, attribute_value. now rewrite Hok.
Qed.

Lemma safe_serialize_object_fields_witness :
  exists d,
    safe_serialize_tabledata (fun _ => "<bytes>") sample_cell = as_pyval d /\
    dict_get d "_type" = Some (PStr "TableCell") /\
    dict_get d "_cache" = None /\
    dict_get d "text" = Some (PStr "42").
Proof.
  destruct (@safe_serialize_object_fields (fun _ => "<bytes>") "TableCell"
              [("text", PStr "42"); ("_cache", POpaque "weakref");
               ("row", PInt 0); ("raw", PBytes "42");
               ("bbox", PObject "BoundingBox" [("l", PInt 1); ("t", PInt 2)])])
    as (d & Hd & Htype & Hprivate & Hpublic).
  { repeat constructor; simpl; intuition discriminate. }
  exists d. split; [exact Hd|]. split; [exact Htype|].
  split; [apply Hprivate; [reflexivity | discriminate]|].
  destruct (Hpublic "text" (PStr "42")) as (v' & Hv' & Hkeep);
    [simpl; auto | reflexivity |].
  now rewrite Hv', Hkeep.
Defined.



(** ** More on the Markdown export *)

Lemma hashes_length (n : nat) : String.length (hashes n) = n.
Proof. induction n; simpl; [reflexivity | now rewrite IHn]. Qed.

(** A heading never has more than six [#]; a section at a non-negative
    integer level [n] gets [min (n + 1) 6] of them, so level 0 is rendered
    as a top-level heading and every level from 5 on as a sixth-level
    one. *)
Theorem heading_marks_at_most_six (level : pyval) (marks : string) :
  heading_marks level = inr marks ->
  (String.length marks <= 6)%nat /\
  (forall n, level = PInt n -> 0 <= n ->
     Z.of_nat (String.length marks) = Z.min (n + 1) 6).
Proof.
  intros H. split.
  - destruct level; simpl in H; try discriminate.
    + destruct b; injection H as <-; simpl; lia.
    + injection H as <-. rewrite hashes_length. lia.
    + destruct (num >? _); [|discriminate]. injection H as <-. simpl. lia.
  - intros n -> Hn. simpl in H. injection H as <-. rewrite hashes_length. lia.
Qed.

Lemma heading_marks_at_most_six_witness :
  (String.length "######" <= 6)%nat /\
  (forall n, PInt 41 = PInt n -> 0 <= n ->
     Z.of_nat (String.length "######") = Z.min (n + 1) 6).
Proof.
  apply (@heading_marks_at_most_six (PInt 41) "######"). reflexivity.
Defined.





(** Without a title, authors, sections and tables the fallback rendering is
    the empty string, and that is what [export_to_markdown] writes and
    returns for a structure that has no rendered Markdown either. *)
Theorem export_to_markdown_of_empty_structure
  (E : extern) (d : DocumentStructure) (output_file : string) (s : state) :
  markdown_content d = "" ->
  title d = "" -> authors d = [] -> sections d = [] -> tables d = [] ->
  fs_writable (fs (env s)) output_file = true ->
  exists s',
    export_to_markdown E d output_file s = (inr "", s') /\
    fs_lookup (fs (env s')) output_file = Some (File "").
Proof.
  intros Hmd Ht Ha Hs Htab Hw.
  unfold export_to_markdown, _create_markdown_from_structure, try_except, bind,
    fs_call, fs_write, logger, ret.
  rewrite Hmd, Ht, Ha, Hs, Htab. simpl. rewrite Hw. simpl.
  eexists. split; [reflexivity|]. simpl.
  rewrite fs_lookup_put. now rewrite String.eqb_refl.
Qed.

Lemma export_to_markdown_of_empty_structure_witness :
  let E := engine always_builds bare_document in
  let s := constructed E default_config small_world in
  let d := {| title := ""; authors := []; sections := []; tables := [];
              images := [[("id", PInt 0)]]; formulas := [];
              metadata := [("total_pages", PInt 3)];
              raw_text := "scanned"; markdown_content := "";
              processing_stats := [] |} in
  exists s',
    export_to_markdown E d "out/empty.md" s = (inr "", s') /\
    fs_lookup (fs (env s')) "out/empty.md" = Some (File "").
Proof.
  intros E s d.
  apply (@export_to_markdown_of_empty_structure E d "out/empty.md" s);
    reflexivity.
Defined.

(** ** More on cleanup *)

Lemma cleanup_loop_frame_any (keep : bool) (ps : list string) :
  forall (s s' : state) (r : exn + unit),
  cleanup_loop keep ps s = (r, s') ->
  forall q, keep && is_main_file q = true \/ ~ In q ps ->
    fs_lookup (fs (env s')) q = fs_lookup (fs (env s)) q.
Proof.
  induction ps as [|p ps IH]; intros s s' r H; simpl in H.
  - unfold ret in H. injection H as <- <-. auto.
  - unfold bind in H. simpl in H.
    destruct (keep && is_main_file p) eqn:Hp; simpl in H.
    + intros q [Hq|Hq]; apply (IH _ _ _ H); [now left|].
      right. intros Hin. apply Hq. now right.
    + unfold fs_call, fs_unlink in H.
      destruct (fs_lookup (fs (env s)) p) as [[c|]|] eqn:Hlook.
      * intros q Hq. rewrite (IH _ _ _ H).
        -- simpl. rewrite fs_lookup_remove.
           destruct (String.eqb p q) eqn:Hpq; [|reflexivity].
           apply String.eqb_eq in Hpq; subst q.
           destruct Hq as [Hq|Hq]; [congruence|]. exfalso. apply Hq. now left.
        -- destruct Hq as [Hq|Hq]; [now left|]. right.
           intros Hin. apply Hq. now right.
      * injection H as <- <-. auto.
      * injection H as <- <-. auto.
Qed.


(** For a path that does not exist [cleanup_temp_files] does nothing at
    all: it returns, and the state, the log included, is the one it
    started in. *)
Theorem cleanup_of_missing_directory_is_noop
  (s : state) (output_dir : string) (keep_main_files : bool) :
  fs_exists (fs (env s)) output_dir = false ->
  cleanup_temp_files output_dir keep_main_files s = (inr tt, s).
Proof.
  intros Hex. unfold cleanup_temp_files, try_except, bind, get_env, ret. simpl.
  now rewrite Hex.
Qed.

Lemma cleanup_of_missing_directory_is_noop_witness :
  cleanup_temp_files "elsewhere" true (idle flat_world)
  = (inr tt, idle flat_world).
Proof.
  apply (@cleanup_of_missing_directory_is_noop (idle flat_world) "elsewhere" true).
  reflexivity.
Defined.



(** Neither [cleanup_temp_files] nor [export_to_markdown] touches the
    processor object or asks anything of the engine, however they end. *)
Theorem cleanup_and_export_leave_processor_alone
  (E : extern) (s : state) (output_dir : string) (keep_main_files : bool)
  (d : DocumentStructure) (output_file : string) :
  quiet s (after (cleanup_temp_files output_dir keep_main_files) s) /\
  quiet s (after (export_to_markdown E d output_file) s).
Proof.
  split.
  - exact (@cleanup_temp_files_quiet output_dir keep_main_files s _ _
             (after_spec _ s)).
  - exact (@export_to_markdown_quiet E d output_file s _ _ (after_spec _ s)).
Qed.

(** ** Calls in sequence *)

Lemma rsplit_none_append (sep : ascii) (a b : string) :
  rsplit sep a = None -> rsplit sep b = None -> rsplit sep (a ++ b) = None.
Proof.
  intros Ha Hb. induction a as [|c a IH]; simpl in *; [exact Hb|].
  destruct (rsplit sep a) as [[l r]|]; [discriminate|].
  rewrite IH by reflexivity. now destruct (Ascii.eqb c sep).
Qed.

Lemma rsplit_append (sep : ascii) (a b : string) :
  rsplit sep b = None -> rsplit sep (a ++ String sep b) = Some (a, b).
Proof.
  intros Hb. induction a as [|c a IH]; simpl.
  - now rewrite Hb, Ascii.eqb_refl.
  - now rewrite IH.
Qed.

Lemma decimal_has_no_separator (n : nat) :
  rsplit "/" (decimal n) = None /\ rsplit "." (decimal n) = None.
Proof.
  unfold decimal. generalize (Nat.to_uint n) as d.
  induction d as [|d [IH1 IH2]|d [IH1 IH2]|d [IH1 IH2]|d [IH1 IH2]|d [IH1 IH2]
                 |d [IH1 IH2]|d [IH1 IH2]|d [IH1 IH2]|d [IH1 IH2]|d [IH1 IH2]];
    simpl; rewrite ?IH1, ?IH2; split; reflexivity.
Qed.

(** The side file of a table carries the suffix that cleanup keeps. *)
Lemma table_file_is_main (dir : string) (i : nat) :
  is_main_file (table_file dir i) = true.
Proof.
  destruct (decimal_has_no_separator i) as [Hslash Hdot].
  assert (Hname : path_name (table_file dir i) = "table_" ++ decimal i ++ ".json").
  { unfold path_name, table_file, path_join.
    change ("/" ++ "table_" ++ decimal i ++ ".json")
      with (String "/" ("table_" ++ decimal i ++ ".json")).
    rewrite rsplit_append; [reflexivity|].
    apply (rsplit_none_append "/" "table_"); [reflexivity|].
    apply rsplit_none_append; [exact Hslash | reflexivity]. }
  unfold is_main_file, path_suffix. rewrite Hname.
  rewrite <- append_assoc.
  change ".json" with (String "." "json").
  rewrite rsplit_append by reflexivity.
  reflexivity.
Qed.

Lemma tables_loop_entries (E : extern) (dir : string) (ts : list table_item) :
  forall (i : nat) (s s' : state) (entries : list pydict),
  tables_loop E dir i ts s = (inr entries, s') ->
  forall entry, In entry entries ->
    exists k c,
      dict_get entry "file_path" = Some (PStr (table_file dir k)) /\
      fs_lookup (fs (env s')) (table_file dir k) = Some (File c).
Proof.
  intros i s s' entries H entry Hin.
  apply tables_loop_returns in H. destruct H as (Hlen & Hnth & _).
  apply In_nth_error in Hin. destruct Hin as [j Hj].
  assert (Hlt : (j < length ts)%nat).
  { rewrite <- Hlen. apply nth_error_Some. congruence. }
  destruct (nth_error ts j) as [t|] eqn:Ht;
    [|apply nth_error_None in Ht; lia].
  destruct (Hnth j t Ht) as [Hentry Hfile].
  rewrite Hentry in Hj. injection Hj as <-.
  eexists _, _. split; [reflexivity | exact Hfile].
Qed.

Lemma cleanup_keeps_main (s : state) (dir q : string) :
  is_main_file q = true ->
  fs_lookup (fs (env (after (cleanup_temp_files dir true) s))) q
  = fs_lookup (fs (env s)) q.
Proof.
  intros Hq.
  unfold after, cleanup_temp_files, try_except, bind, get_env. simpl.
  destruct (fs_exists (fs (env s)) dir); [|reflexivity].
  destruct (cleanup_loop true _ s) as [[e|[]] s5] eqn:Hl; simpl;
    apply (cleanup_loop_frame_any _ _ _ Hl); now left.
Qed.

(** The table files of a returned structure survive a cleanup that keeps
    main files: every entry of [tables] still points to an existing file,
    with the content it had, after [cleanup_temp_files(output_dir, True)]. *)
Theorem table_files_survive_cleanup
  (E : extern) (file_path output_dir : string) (use_ocr : bool)
  (languages : string) (s s1 : state) (ds : DocumentStructure) :
  process_document E file_path output_dir use_ocr languages s = (inr ds, s1) ->
  forall entry, In entry (tables ds) ->
    exists p c,
      dict_get entry "file_path" = Some (PStr p) /\
      fs_lookup (fs (env s1)) p = Some (File c) /\
      fs_lookup (fs (env (after (cleanup_temp_files output_dir true) s1))) p
      = Some (File c).
Proof.
  intros H entry Hin.
  apply process_document_returns in H.
  destruct H as (s0 & c & doc & s2 & d0 & s3 & t0 & t1 & _ & _ & _ & _ & _ & _
                 & Hextract & Hfs & ->).
  apply extract_returns in Hextract.
  destruct Hextract as (tabs & s4 & chunks & Hloop & Hfs' & ->).
  simpl in Hin.
  destruct (doc_tables doc) as [ts|];
    [|inv_prim Hloop; contradiction].
  destruct (@tables_loop_entries _ _ _ _ _ _ _ Hloop entry Hin) as (k & content & Hpath & Hfile).
  exists (table_file output_dir k), content.
  rewrite Hfs, Hfs'. split; [exact Hpath|]. split; [exact Hfile|].
  rewrite cleanup_keeps_main by apply table_file_is_main.
  rewrite Hfs, Hfs'. exact Hfile.
Qed.

Lemma table_files_survive_cleanup_witness :
  let E := engine always_builds illustrated_document in
  let s := constructed E default_config small_world in
  exists ds s1,
    process_document E "in.pdf" "out" false "eng" s = (inr ds, s1) /\
    forall entry, In entry (tables ds) ->
      exists p c,
        dict_get entry "file_path" = Some (PStr p) /\
        fs_lookup (fs (env s1)) p = Some (File c) /\
        fs_lookup (fs (env (after (cleanup_temp_files "out" true) s1))) p
        = Some (File c).
Proof.
  intros E s. eexists _, _. split.
  - vm_compute. reflexivity.
  - eapply (@table_files_survive_cleanup E "in.pdf" "out" false "eng" s).
    vm_compute. reflexivity.
Defined.



(** ** Construction *)

Lemma fs_lookup_app (fs : filesystem) (p q : string) (n : node) :
  fs_lookup (fs ++ [(p, n)])%list q
  = match fs_lookup fs q with
    | Some x => Some x
    | None => if String.eqb p q then Some n else None
    end.
Proof.
  induction fs as [|[r m] fs IH]; simpl; [reflexivity|].
  destruct (String.eqb r q); [reflexivity | exact IH].
Qed.

(** [mkdir] adds directories and nothing else: what was there is there, and
    the path asked for is a directory afterwards. *)
Lemma fs_mkdir_parents_adds_directories (fuel : nat) :
  forall (fs fs' : filesystem) (p : string),
  fs_mkdir_parents fuel fs p = inr fs' ->
  fs_lookup fs' p = Some Dir /\
  (forall q n, fs_lookup fs q = Some n -> fs_lookup fs' q = Some n) /\
  (forall q, fs_lookup fs q = None ->
     fs_lookup fs' q = None \/ fs_lookup fs' q = Some Dir).
Proof.
  induction fuel as [|fuel IH]; intros fs fs' p H; simpl in H.
  - destruct (fs_lookup fs p) as [[c|]|] eqn:Hp; try discriminate.
    + injection H as <-. auto.
    + assert (fs' = (fs ++ [(p, Dir)])%list)
        by (destruct (path_parent p); now injection H as <-).
      subst fs'. repeat split.
      * rewrite fs_lookup_app, Hp. now rewrite String.eqb_refl.
      * intros q n Hq. now rewrite fs_lookup_app, Hq.
      * intros q Hq. rewrite fs_lookup_app, Hq. destruct (String.eqb p q); auto.
  - destruct (fs_lookup fs p) as [[c|]|] eqn:Hp; try discriminate.
    + injection H as <-. auto.
    + destruct (path_parent p) as [[|c d]|].
      * injection H as <-. repeat split.
        -- rewrite fs_lookup_app, Hp. now rewrite String.eqb_refl.
        -- intros q n Hq. now rewrite fs_lookup_app, Hq.
        -- intros q Hq. rewrite fs_lookup_app, Hq. destruct (String.eqb p q); auto.
      * destruct (fs_mkdir_parents fuel fs (String c d)) as [e|fs1] eqn:Hrec;
          [discriminate|].
        injection H as <-.
        destruct (IH _ _ _ Hrec) as (_ & Hkeep & Hnew).
        repeat split.
        -- rewrite fs_lookup_app. destruct (Hnew p Hp) as [-> | ->];
             [now rewrite String.eqb_refl | reflexivity].
        -- intros q n Hq. now rewrite fs_lookup_app, (Hkeep q n Hq).
        -- intros q Hq. rewrite fs_lookup_app.
           destruct (Hnew q Hq) as [-> | ->]; [|auto].
           destruct (String.eqb p q); auto.
      * injection H as <-. repeat split.
        -- rewrite fs_lookup_app, Hp. now rewrite String.eqb_refl.
        -- intros q n Hq. now rewrite fs_lookup_app, Hq.
        -- intros q Hq. rewrite fs_lookup_app, Hq. destruct (String.eqb p q); auto.
Qed.

(** A processor that [__init__] returned holds the given configuration, a
    freshly built handle without OCR, no chunker and a cleared
    [ocr_initialized]; its cache and temporary directories exist, and every
    path that existed before is as it was. *)
Theorem init_postconditions (E : extern) (cfg : DoclingConfig) (w : world)
  (s : state) :
  __init__ E cfg w = (inr tt, s) ->
  self s
  = {| config := cfg;
       converter := Some {| serial := length (constructions w);
                            pipeline_options := base_options cfg |};
       chunker := None;
       ocr_initialized := false |} /\
  constructions (env s) = (constructions w ++ [base_options cfg])%list /\
  conversions (env s) = conversions w /\
  fs_lookup (fs (env s)) (cache_dir cfg) = Some Dir /\
  fs_lookup (fs (env s)) (temp_dir cfg) = Some Dir /\
  (forall q n, fs_lookup (fs w) q = Some n -> fs_lookup (fs (env s)) q = Some n).
Proof.
  unfold __init__. intros H.
  inv_bind H. unfold fs_call in Hstep. simpl in Hstep.
  destruct (fs_mkdir (fs w) (cache_dir cfg)) as [e|fs1] eqn:Hmk1; [discriminate|].
  inversion Hstep; subst; clear Hstep.
  inv_bind H. unfold fs_call in Hstep. simpl in Hstep.
  destruct (fs_mkdir fs1 (temp_dir cfg)) as [e|fs2] eqn:Hmk2; [discriminate|].
  inversion Hstep; subst; clear Hstep.
  inv_bind H.
  unfold _initialize_base_converter, construct_converter, set_converter,
    bind, try_except, logger, get_self, raise in Hstep; simpl in Hstep.
  destruct (new_converter E _ _); simpl in Hstep; [discriminate|].
  inversion Hstep; subst; clear Hstep.
  unfold logger in H. injection H as <-. simpl.
  apply fs_mkdir_parents_adds_directories in Hmk1, Hmk2.
  destruct Hmk1 as (Hc1 & Hk1 & _), Hmk2 as (Hc2 & Hk2 & _).
  repeat split; auto.
Qed.

Lemma init_postconditions_witness :
  let E := engine always_builds bare_document in
  let s := constructed E default_config small_world in
  self s
  = {| config := default_config;
       converter := Some {| serial := length (constructions small_world);
                            pipeline_options := base_options default_config |};
       chunker := None;
       ocr_initialized := false |} /\
  constructions (env s)
  = (constructions small_world ++ [base_options default_config])%list /\
  conversions (env s) = conversions small_world /\
  fs_lookup (fs (env s)) (cache_dir default_config) = Some Dir /\
  fs_lookup (fs (env s)) (temp_dir default_config) = Some Dir /\
  (forall q n, fs_lookup (fs small_world) q = Some n ->
     fs_lookup (fs (env s)) q = Some n).
Proof.
  intros E s.
  apply (@init_postconditions E default_config small_world s).
  vm_compute. reflexivity.
Defined.

Lemma fs_mkdir_on_file (fuel : nat) (fs : filesystem) (p c : string) :
  fs_lookup fs p = Some (File c) ->
  fs_mkdir_parents fuel fs p = inl (FileExistsError p).
Proof. intros H. destruct fuel; simpl; now rewrite H. Qed.

(** When the cache directory path is taken by a regular file, [__init__]
    raises [FileExistsError] before it asks the engine for a handle: no
    processor comes out and nothing has changed. *)
Theorem init_fails_when_cache_dir_is_a_file
  (E : extern) (cfg : DoclingConfig) (w : world) (c : string) :
  fs_lookup (fs w) (cache_dir cfg) = Some (File c) ->
  exists s,
    __init__ E cfg w = (inl (FileExistsError (cache_dir cfg)), s) /\
    converter (self s) = None /\
    env s = w.
Proof.
  intros H. unfold __init__, bind, fs_call, fs_mkdir. simpl.
  rewrite (fs_mkdir_on_file _ _ _ H). eexists. repeat split.
Qed.

Lemma init_fails_when_cache_dir_is_a_file_witness :
  let E := engine always_builds bare_document in
  let cfg := {| model_path := "models"; cache_dir := "in.pdf"; temp_dir := "tmp";
                use_gpu := false; max_workers := 1;
                enable_ocr_by_default := false; ocr_languages := ["eng"];
                ocr_confidence_threshold := (8, 10%positive);
                extract_tables := true; extract_images := true;
                extract_formulas := true; preserve_layout := true;
                processing_timeout := 60; max_file_size_mb := 1 |} in
  exists s,
    __init__ E cfg small_world = (inl (FileExistsError (cache_dir cfg)), s) /\
    converter (self s) = None /\
    env s = small_world.
Proof.
  intros E cfg.
  apply (@init_fails_when_cache_dir_is_a_file E cfg small_world "%PDF-1.7").
  reflexivity.
Defined.

(** ** The chunker *)

(** [_initialize_chunker] never raises.  Without the transformers library
    it leaves the chunker it finds; otherwise the chunker is the new one
    (1024 tokens, 128 overlap) when it could be built and [None] when it
    could not.  Nothing else of the processor, no file and no engine record
    changes. *)
Theorem initialize_chunker_never_raises
  (transformers_available : bool) (build : option exn) (s : state) :
  exists s',
    _initialize_chunker transformers_available build s = (inr tt, s') /\
    chunker (self s')
    = (if transformers_available then
         match build with
         | None => Some {| max_tokens := 1024; overlap_tokens := 128 |}
         | Some _ => None
         end
       else chunker (self s)) /\
    config (self s') = config (self s) /\
    converter (self s') = converter (self s) /\
    ocr_initialized (self s') = ocr_initialized (self s) /\
    fs (env s') = fs (env s) /\
    constructions (env s') = constructions (env s) /\
    conversions (env s') = conversions (env s).
Proof.
  unfold _initialize_chunker, try_except, bind, set_chunker, logger, ret, raise.
  destruct transformers_available; simpl; [destruct build; simpl|];
    eexists; repeat split.
Qed.

(** The chunking step of the extraction never raises: without a chunker or
    without Markdown it counts 0 chunks, with a chunker that raises it
    logs a warning and counts 0, and otherwise it counts what the chunker
    produced. *)
Theorem chunking_never_fails_extraction
  (E : extern) (doc : DoclingDocument) (markdown : string) (s : state) :
  exists n s',
    count_chunks E doc markdown s = (inr n, s') /\
    quiet s s' /\
    fs (env s') = fs (env s) /\
    n = match chunker (self s), markdown with
        | Some ch, String _ _ =>
            match chunk E ch doc with
            | inr m => m
            | inl _ => O
            end
        | _, _ => O
        end.
Proof.
  unfold count_chunks, try_except, bind, get_self, logger, ret, raise.
  destruct (chunker (self s)) as [ch|]; [destruct markdown|]; simpl;
    try (destruct (chunk E ch doc); simpl);
    eexists _, _; repeat split.
Qed.

(** ** Statistics *)

Lemma strings_dump_ok (l : list string) :
  forallb json_dumps_ok (map PStr l) = true.
Proof. induction l; simpl; auto. Qed.

(** [get_processing_stats] changes nothing, and what it returns is
    JSON-serializable as it is and reports the [ocr_initialized] flag, not
    the mode of the handle in effect. *)
Theorem processing_stats_are_json_ready
  (transformers_available : bool) (s : state) :
  exists stats,
    get_processing_stats transformers_available s = (inr stats, s) /\
    json_dumps_ok (as_pyval stats) = true /\
    dict_get stats "ocr_initialized" = Some (PBool (ocr_initialized (self s))) /\
    dict_get stats "converter_initialized"
    = Some (PBool match converter (self s) with Some _ => true | None => false end).
Proof.
  unfold get_processing_stats, bind, get_self, ret. eexists.
  split; [reflexivity|]. split; [|split; reflexivity].
  simpl. rewrite strings_dump_ok. reflexivity.
Qed.

(** ** The factory *)

(** A [DOCLING_MAX_WORKERS] that [int] rejects makes the factory raise that
    error before anything else happens: no directory is created and the
    engine is not asked for a handle. *)
Theorem factory_rejects_bad_worker_count
  (E : extern) (vars : environ) (w : world) (e : exn) :
  py_int vars (getenv_default vars "DOCLING_MAX_WORKERS" "4") = inl e ->
  create_docling_processor_from_env E vars w = (inl e, w).
Proof.
  intros H. unfold create_docling_processor_from_env, config_from_env.
  now rewrite H.
Qed.

Lemma factory_rejects_bad_worker_count_witness :
  create_docling_processor_from_env (engine always_builds bare_document)
    misconfigured_environ small_world
  = (inl (EngineError "ValueError: invalid literal for int() with base 10"),
     small_world).
Proof.
  apply (@factory_rejects_bad_worker_count (engine always_builds bare_document)
           misconfigured_environ small_world).
  reflexivity.
Defined.

(** In a configuration read from the environment the timeout is the
    variable's number of minutes times 60, the cache directory comes from
    [DOCLING_HOME], a flag is on only for a value that reads ["true"] in
    any casing, and the OCR languages, formula extraction and layout
    preservation are the class defaults whatever the environment says. *)
Theorem config_from_env_facts (vars : environ) (cfg : DoclingConfig) :
  config_from_env vars = inr cfg ->
  (exists minutes,
     py_int vars (getenv_default vars "PROCESSING_TIMEOUT_MINUTES" "60")
     = inr minutes /\
     processing_timeout cfg = minutes * 60) /\
  cache_dir cfg = getenv_default vars "DOCLING_HOME" "/mnt/storage/models/docling" /\
  (use_gpu cfg = true <->
   lower (getenv_default vars "DOCLING_USE_GPU" "true") = "true") /\
  ocr_languages cfg = ["eng"; "rus"; "chi_sim"] /\
  extract_formulas cfg = true /\
  preserve_layout cfg = true.
Proof.
  unfold config_from_env.
  destruct (py_int vars (getenv_default vars "DOCLING_MAX_WORKERS" "4"));
    [discriminate|].
  destruct (py_float vars _); [discriminate|].
  destruct (py_int vars (getenv_default vars "PROCESSING_TIMEOUT_MINUTES" "60"))
    as [|minutes] eqn:Hm; [discriminate|].
  destruct (py_int vars (getenv_default vars "MAX_FILE_SIZE_MB" "500"));
    [discriminate|].
  intros H. injection H as <-. simpl.
  split; [now exists minutes|]. split; [reflexivity|].
  split; [apply String.eqb_eq|]. auto.
Qed.

Lemma config_from_env_facts_witness :
  exists cfg,
    config_from_env tuned_environ = inr cfg /\
    processing_timeout cfg = 300 /\
    cache_dir cfg = "cache" /\
    use_gpu cfg = false /\
    ocr_languages cfg = ["eng"; "rus"; "chi_sim"].
Proof.
  destruct (config_from_env tuned_environ) as [e|cfg] eqn:Hcfg;
    [vm_compute in Hcfg; discriminate|].
  destruct (config_from_env_facts _ Hcfg)
    as ((minutes & Hm & Htimeout) & Hcache & Hgpu & Hlang & _).
  exists cfg. split; [reflexivity|].
  vm_compute in Hm. injection Hm as <-.
  repeat split; try assumption.
  destruct (use_gpu cfg); [|reflexivity].
  destruct Hgpu as [Hgpu _]. specialize (Hgpu eq_refl).
  vm_compute in Hgpu. discriminate.
Defined.
